(** * Weather forecast tool: location resolver, forecast fetcher and renderer

    A shallow embedding of the final variant of the program (the one with the
    [-sunrise], [-sunset], [-p], [-uv] and [-f] flags): [createPattern],
    [processJsonData], [formatExtraForecastParams], [GetWeather],
    [FindCityLocation] and [main].

    - [float64] is the kernel's binary64 type [float]; every Go operator is the
      IEEE operation of the same name, rounded once.
    - [int] is the 64-bit signed integer, carried as [Z].
    - [string] and [[]byte] are [string]; slices are [list]s indexed by [nat].
    - Printing, run-time panics and [os.Exit] are threaded through the monad
      [M]: a computation yields what it printed and either a value or the
      reason it stopped.
    - What the program calls in Go's library or on the network ([http.Get],
      [json.Unmarshal], [url.PathEscape], [time.Parse], [Time.Format]) is a
      [Variable] of the section: the theorems hold for every behaviour of
      these. *)

From Stdlib Require Import ZArith List String Ascii Bool Lia Sorted.
From Stdlib Require Import Floats.
Import ListNotations.

Local Open Scope Z_scope.
Local Open Scope list_scope.

(** ** Data model *)

Module City.
Record t := mk { Name : string; Country : string }.
End City.

Module GeoCodingResult.
(** [Latitude] and [Longitude] are [json.Number]: the decimal text of the
    payload, kept as it was received. *)
Record t := mk {
  Name : string;
  Latitude : string;
  Longitude : string;
  Country : string
}.
End GeoCodingResult.

Module GeoCodingResponse.
Record t := mk { GeoCodingResults : list GeoCodingResult.t }.
End GeoCodingResponse.

Module Location.
Record t := mk { Longitude : string; Latitude : string }.
End Location.

Module ForecastParams.
Record t := mk {
  Precipitation : bool;
  Sunrise : bool;
  Sunset : bool;
  UVIndex : bool;
  Fahr : bool
}.
End ForecastParams.

Module History.
Record t := mk {
  MaxTemps : list float;
  MinTemps : list float;
  UVIndex : list float;
  Sunrise : list string;
  Sunset : list string;
  Precip : list float;
  World : list string
}.
End History.

Module Response.
Record t := mk { History : History.t }.
End Response.

(** The command line after [flag.Parse]. *)
Module Flags.
Record t := mk {
  city : string;
  country : string;
  p : bool;
  uv : bool;
  sunrise : bool;
  sunset : bool;
  f : bool
}.
End Flags.

(** ** What a run prints *)

(** The optional segments appended to a day's line, each holding the argument
    of its [Sprintf]: [" | Sunrise: %s"], [" | Sunset: %s"],
    [" | Precip: %.2f mm"], [" | UV Index: %.1f"]. *)
Inductive Segment :=
| SegSunrise (clock : string)
| SegSunset (clock : string)
| SegPrecip (mm : float)
| SegUVIndex (v : float).

(** One line of the report: the four arguments of
    [Sprintf("%s %02d °%s | %s", ...)] followed by the appended segments, in
    the order they were appended. *)
Record Line := mkLine {
  l_pattern : string;
  l_degrees : Z;
  l_unit : string;
  l_date : string;
  l_segments : list Segment
}.

(** [output += Sprintf(...)] for one segment. *)
Definition append_segment (output : Line) (s : Segment) : Line :=
  mkLine (l_pattern output) (l_degrees output) (l_unit output) (l_date output)
    (l_segments output ++ [s]).

Inductive Out :=
| PrintInt (n : Z)            (* fmt.Println(n) in createPattern *)
| PrintError (err : string)   (* fmt.Println("Error:", err) *)
| PrintLine (l : Line)        (* fmt.Println(output) *)
| PrintText (s : string)      (* fmt.Println(err) in main *)
| PrintUsage                  (* flag.Usage() *)
| LogFatal (msg : string).    (* the message of log.Fatalf *)

(** Why a run stopped before the end of the function. *)
Inductive Halt :=
| IndexOutOfRange (i len : nat)  (* panic: index out of range [i] with length len *)
| NegativeRepeat                 (* panic: strings: negative Repeat count *)
| Exit (code : Z).               (* os.Exit(code) *)

(** ** The monad of printing and stopping *)

Definition M (A : Type) : Type := (list Out * (A + Halt))%type.

Definition ret {A} (a : A) : M A := ([], inl a).

Definition bind {A B} (m : M A) (k : A -> M B) : M B :=
  match m with
  | (o, inl a) => let '(o', r) := k a in (o ++ o', r)
  | (o, inr h) => (o, inr h)
  end.

Definition Println (x : Out) : M unit := ([x], inl tt).

Definition stop {A} (h : Halt) : M A := ([], inr h).

Notation "x <- m ;; k" := (bind m (fun x => k))
  (at level 61, m at next level, right associativity).
Notation "m ;;; k" := (bind m (fun _ => k))
  (at level 61, right associativity).

Definition printed {A} (m : M A) : list Out := fst m.
Definition result {A} (m : M A) : A + Halt := snd m.

(** The day lines among what was printed, in order. *)
Fixpoint lines (o : list Out) : list Line :=
  match o with
  | [] => []
  | PrintLine l :: o' => l :: lines o'
  | _ :: o' => lines o'
  end.

(** [xs[i]] of a slice. *)
Definition index {A} (xs : list A) (i : nat) : M A :=
  match nth_error xs i with
  | Some x => ret x
  | None => stop (IndexOutOfRange i (List.length xs))
  end.

(** ** Go's numeric conversion [int(x)] of a [float64] *)

Definition MinInt64 : Z := - 2 ^ 63.
Definition MaxInt64 : Z := 2 ^ 63 - 1.

(** The fractional part is discarded (truncation towards zero); [None] for
    NaN and the infinities. *)
Definition truncate (x : float) : option Z :=
  match Prim2SF x with
  | S754_zero _ => Some 0
  | S754_finite s m e => Some (cond_Zopp s (Z.shiftl (Zpos m) e))
  | S754_infinity _ => None
  | S754_nan => None
  end.

(** ** [strings.Repeat] *)

Fixpoint repeat_string (s : string) (n : nat) : string :=
  match n with
  | O => EmptyString
  | S n' => String.append s (repeat_string s n')
  end.

Definition strings_Repeat (s : string) (count : Z) : M string :=
  if count <? 0 then stop NegativeRepeat
  else ret (repeat_string s (Z.to_nat count)).

Section Program.

(** The value of [int(x)] where the truncated [x] is not an [int]: the
    language leaves it to the implementation (amd64 gives [MinInt64]
    throughout, arm64 gives 0 for NaN and saturates otherwise). *)
Variable int_unrepresentable : float -> Z.

Definition int_of_float64 (x : float) : Z :=
  match truncate x with
  | Some z =>
      if (MinInt64 <=? z) && (z <=? MaxInt64) then z
      else int_unrepresentable x
  | None => int_unrepresentable x
  end.

(** ** Library and network *)

(** [http.Get(url)] followed by [io.ReadAll] of the body: the body, or the
    error of either call. *)
Variable http_Get : string -> string + string.
Variable url_PathEscape : string -> string.
(** [json.Unmarshal] into a [GeoCodingResponse] and into a [Response]. *)
Variable Unmarshal_GeoCodingResponse : string -> GeoCodingResponse.t + string.
Variable Unmarshal_Response : string -> Response.t + string.
(** [time.Parse(layout, value)] and [t.Format(layout)]. *)
Variable Time : Type.
Variable time_Parse : string -> string -> Time + string.
Variable time_Format : Time -> string -> string.

(** ** Forecast fetcher *)

Definition formatExtraForecastParams (f : ForecastParams.t) : string :=
  let formattedParams := "&daily=temperature_2m_max,temperature_2m_min"%string in
  let formattedParams :=
    if ForecastParams.Precipitation f
    then (formattedParams ++ ",precipitation_sum")%string else formattedParams in
  let formattedParams :=
    if ForecastParams.Sunrise f
    then (formattedParams ++ ",sunrise")%string else formattedParams in
  let formattedParams :=
    if ForecastParams.Sunset f
    then (formattedParams ++ ",sunset")%string else formattedParams in
  let formattedParams :=
    if ForecastParams.UVIndex f
    then (formattedParams ++ ",uv_index_max")%string else formattedParams in
  let formattedParams :=
    if ForecastParams.Fahr f
    then (formattedParams ++ "&temperature_unit=fahrenheit")%string
    else formattedParams in
  formattedParams.

(** The address [GetWeather] requests. *)
Definition forecastUrl (loc : Location.t) (forecast_params : ForecastParams.t)
  : string :=
  ("https://api.open-meteo.com/v1/forecast?"
     ++ ("latitude=" ++ Location.Latitude loc
           ++ "&longitude=" ++ Location.Longitude loc ++ "&timezone=auto")
     ++ formatExtraForecastParams forecast_params)%string.

(** The pair [(responseData, err)]; [err] is [None] for [nil]. *)
Definition GetWeather (loc : Location.t) (forecast_params : ForecastParams.t)
  : string * option string :=
  match http_Get (forecastUrl loc forecast_params) with
  | inr err => (EmptyString, Some err)
  | inl responseData => (responseData, None)
  end.

(** ** Forecast renderer *)

Definition createPattern (n : Z) (isFahrenheit : bool) : M string :=
  n <- (if n <? 0 then Println (PrintInt n) ;;; ret 0
        else if n >? 5 then ret 5
        else ret n) ;;
  let stars := n in
  asterisks <- strings_Repeat "*" stars ;;
  spaces <- strings_Repeat " " (5 - stars) ;;
  ret (asterisks ++ spaces)%string.

(** One turn of the first loop of [processJsonData], on the pair
    [(minTemp, maxTemp)]. *)
Definition range_step (fah : bool) (acc : float * float) (temp : float)
  : float * float :=
  let '(minTemp, maxTemp) := acc in
  let temp := if fah then ((temp * 9 / 5) + 32)%float else temp in
  let minTemp :=
    if (minTemp =? 0)%float || (temp <? minTemp)%float then temp else minTemp in
  let maxTemp := if (maxTemp <? temp)%float then temp else maxTemp in
  (minTemp, maxTemp).

(** The first loop: both variables start at the zero value of [float64]. *)
Definition temp_range (fah : bool) (MaxTemps : list float) : float * float :=
  fold_left (range_step fah) MaxTemps (0%float, 0%float).

(** The body of the second loop at index [i]. *)
Definition render_day (resp : Response.t)
    (fah showPrecip showUV showSunrise showSunset : bool)
    (minTemp maxTemp : float) (i : nat) : M unit :=
  let h := Response.History resp in
  x <- index (History.MaxTemps h) i ;;
  let temp := if fah then ((x * 9 / 5) + 32)%float else x in
  let stars := int_of_float64 (((temp - minTemp) / (maxTemp - minTemp)) * 5)%float in
  let stars := if stars <=? 0 then 1 else stars in
  let tempUnit := if fah then "F"%string else "C"%string in
  pat <- createPattern stars true ;;
  day <- index (History.World h) i ;;
  let output := mkLine pat (int_of_float64 temp) tempUnit day [] in
  output <-
    (if showSunrise && (0 <? List.length (History.Sunrise h))%nat then
       s <- index (History.Sunrise h) i ;;
       match time_Parse "2006-01-02T15:04" s with
       | inl t =>
           ret (append_segment output (SegSunrise (time_Format t "15:04")))
       | inr _ => ret output
       end
     else ret output) ;;
  output <-
    (if showSunset && (0 <? List.length (History.Sunset h))%nat then
       s <- index (History.Sunset h) i ;;
       match time_Parse "2006-01-02T15:04" s with
       | inl t =>
           ret (append_segment output (SegSunset (time_Format t "15:04")))
       | inr _ => ret output
       end
     else ret output) ;;
  output <-
    (if showPrecip then
       if (0 <? List.length (History.Precip h))%nat then
         v <- index (History.Precip h) i ;;
         ret (append_segment output (SegPrecip v))
       else ret output
     else ret output) ;;
  output <-
    (if showUV then
       if (0 <? List.length (History.UVIndex h))%nat then
         v <- index (History.UVIndex h) i ;;
         ret (append_segment output (SegUVIndex v))
       else ret output
     else ret output) ;;
  Println (PrintLine output).

(** [for i := i; i < i + n; i++ { body }]. *)
Fixpoint for_loop (body : nat -> M unit) (n i : nat) : M unit :=
  match n with
  | O => ret tt
  | S n' => body i ;;; for_loop body n' (S i)
  end.

Definition processJsonData (jsonData : string)
    (fah showPrecip showUV showSunrise showSunset : bool) : M unit :=
  match Unmarshal_Response jsonData with
  | inr err => Println (PrintError err)
  | inl resp =>
      let '(minTemp, maxTemp) :=
        temp_range fah (History.MaxTemps (Response.History resp)) in
      for_loop
        (render_day resp fah showPrecip showUV showSunrise showSunset
           minTemp maxTemp)
        (List.length (History.MaxTemps (Response.History resp))) 0
  end.

(** ** Location resolver *)

(** The loop over [geocodingResponse.GeoCodingResults]: the first element
    whose [Country] is [country], as [Latitude.String()] and
    [Longitude.String()]. *)
Fixpoint first_match (results : list GeoCodingResult.t) (country : string)
  : option (string * string) :=
  match results with
  | [] => None
  | r :: rest =>
      if String.eqb (GeoCodingResult.Country r) country
      then Some (GeoCodingResult.Latitude r, GeoCodingResult.Longitude r)
      else first_match rest country
  end.

Definition no_match_message (city : City.t) : string :=
  ("Could not find a proper location match for " ++ City.Name city
     ++ " of country " ++ City.Country city)%string.

Definition geocodingUrl (city : City.t) : string :=
  let api_params :=
    url_PathEscape
      ("name=" ++ City.Name city ++ "&count=10&language=en&format=json")%string in
  ("https://geocoding-api.open-meteo.com/v1/search?" ++ api_params)%string.

(** The triple [(latitude, longitude, err)]; [err] is [None] for [nil]. *)
Definition FindCityLocation (city : City.t)
  : M (string * string * option string) :=
  match http_Get (geocodingUrl city) with
  | inr err => ret (EmptyString, EmptyString, Some err)
  | inl responseData =>
      match Unmarshal_GeoCodingResponse responseData with
      | inr err =>
          Println (LogFatal ("Error unmarshalling JSON: " ++ err)%string) ;;;
          stop (Exit 1)
      | inl geocodingResponse =>
          match first_match
                  (GeoCodingResponse.GeoCodingResults geocodingResponse)
                  (City.Country city) with
          | Some (lat, lon) => ret (lat, lon, None)
          | None =>
              ret (EmptyString, EmptyString, Some (no_match_message city))
          end
      end
  end.

(** ** The command *)

Definition main (fl : Flags.t) : M unit :=
  (if String.eqb (Flags.city fl) "" || String.eqb (Flags.country fl) ""
   then Println PrintUsage ;;; stop (Exit 1)
   else ret tt) ;;;
  r <- FindCityLocation (City.mk (Flags.city fl) (Flags.country fl)) ;;
  let '(lat, lon, err) := r in
  match err with
  | Some e => Println (PrintText e) ;;; stop (Exit 1)
  | None =>
      let loc := Location.mk lon lat in
      let params :=
        ForecastParams.mk (Flags.p fl) (Flags.sunrise fl) (Flags.sunset fl)
          (Flags.uv fl) (Flags.f fl) in
      let '(weather, err) := GetWeather loc params in
      match err with
      | Some e => Println (PrintText e) ;;; stop (Exit 1)
      | None =>
          processJsonData weather (Flags.f fl) (Flags.p fl) (Flags.uv fl)
            (Flags.sunrise fl) (Flags.sunset fl)
      end
  end.

End Program.

(** ** Two implementations of the conversion, and a sample clock *)

(** amd64: the "integer indefinite" value for every unrepresentable input. *)
Definition amd64_unrepresentable (x : float) : Z := MinInt64.

(** arm64: 0 for NaN, saturation otherwise. *)
Definition arm64_unrepresentable (x : float) : Z :=
  if is_nan x then 0
  else if (x <? 0)%float then MinInt64 else MaxInt64.

(** A stand-in for [time.Parse] and [Time.Format] on well-formed stamps
    ["YYYY-MM-DDTHH:MM"], used where a run is evaluated. *)
Definition sample_Parse (layout value : string) : string + string :=
  if (String.length value =? 16)%nat then inl value
  else inr "parsing time"%string.

Definition sample_Format (t layout : string) : string := substring 11 5 t.

(** ** The spec's reading of the renderer, for comparison *)

(** The least and the greatest element of a non-empty series, by [<]. *)
Definition true_min (temps : list float) : option float :=
  match temps with
  | [] => None
  | t :: rest =>
      Some (fold_left (fun m x => if (x <? m)%float then x else m) rest t)
  end.

Definition true_max (temps : list float) : option float :=
  match temps with
  | [] => None
  | t :: rest =>
      Some (fold_left (fun m x => if (m <? x)%float then x else m) rest t)
  end.

(** The intensity a pattern shows: its leading asterisks. *)
Fixpoint intensity (pat : string) : nat :=
  match pat with
  | String "*" rest => S (intensity rest)
  | _ => O
  end.

(** [k] asterisks, then blanks up to width 5. *)
Definition stars_blanks (k : nat) : string :=
  (repeat_string "*" k ++ repeat_string " " (5 - k))%string.

(** A payload whose optional arrays, where present, and whose date array
    cover every index of the temperature array. *)
Definition covers {A B} (xs : list A) (temps : list B) : Prop :=
  (List.length temps <= List.length xs)%nat.

Definition covers_or_empty {A B} (xs : list A) (temps : list B) : Prop :=
  xs = [] \/ covers xs temps.

Definition aligned (h : History.t) : Prop :=
  covers (History.World h) (History.MaxTemps h)
  /\ covers_or_empty (History.Sunrise h) (History.MaxTemps h)
  /\ covers_or_empty (History.Sunset h) (History.MaxTemps h)
  /\ covers_or_empty (History.Precip h) (History.MaxTemps h)
  /\ covers_or_empty (History.UVIndex h) (History.MaxTemps h).

(** A [float64] that is a zero of either sign, or NaN. *)
Definition zero_or_nan (x : float) : Prop :=
  (exists s, Prim2SF x = S754_zero s) \/ Prim2SF x = S754_nan.

(** The value of [stars] that [processJsonData] hands to [createPattern] for
    a day of temperature [temp]. *)
Definition floored_stars (int_unrepresentable : float -> Z)
    (temp minTemp maxTemp : float) : Z :=
  let stars :=
    int_of_float64 int_unrepresentable
      (((temp - minTemp) / (maxTemp - minTemp)) * 5)%float in
  if stars <=? 0 then 1 else stars.

(** The temperature of a day in the unit of the report. *)
Definition display_temp (fah : bool) (x : float) : float :=
  if fah then ((x * 9 / 5) + 32)%float else x.

Definition display_unit (fah : bool) : string :=
  if fah then "F"%string else "C"%string.

(** The line of a day of source temperature [x] dated [day], with segments
    [segs]. *)
Definition day_line (int_unrepresentable : float -> Z) (fah : bool)
    (minTemp maxTemp x : float) (day : string) (segs : list Segment) : Line :=
  mkLine
    (stars_blanks
       (Z.to_nat
          (Z.min (floored_stars int_unrepresentable (display_temp fah x)
                    minTemp maxTemp) 5)))
    (int_of_float64 int_unrepresentable (display_temp fah x))
    (display_unit fah) day segs.

(** The first loop as the spec reads it with [useFahrenheit=false]: a scan
    of the source values themselves. *)
Definition source_range_step (acc : float * float) (t : float) : float * float :=
  (if (fst acc =? 0)%float || (t <? fst acc)%float then t else fst acc,
   if (snd acc <? t)%float then t else snd acc).

(** ** Payloads and providers for evaluated runs *)

Definition decode_as {A} (r : A) (body : string) : A + string := inl r.

Definition three_days : list string :=
  ["2024-06-01"; "2024-06-02"; "2024-06-03"]%string.

Definition rising_week : Response.t :=
  Response.mk
    (History.mk [10; 15; 20]%float [4; 6; 9]%float [5.5; 6; 7]%float [] []
       [0; 1.5; 0.25]%float three_days).

Definition flat_week : Response.t :=
  Response.mk
    (History.mk [20; 20; 20]%float [9; 9; 9]%float [] [] [] [] three_days).

Definition frost_week : list float := [-10; -5]%float.
Definition thaw_week : list float := [5; 0; 10]%float.

(** Two days of temperatures, one entry in one optional array. *)
Definition two_days (UVIndex : list float) (Sunrise Sunset : list string)
    (Precip : list float) : Response.t :=
  Response.mk
    (History.mk [21; 23]%float [11; 12]%float UVIndex Sunrise Sunset Precip
       ["2024-06-01"; "2024-06-02"]%string).

Definition short_sunrise := two_days [] ["2024-06-01T04:47"%string] [] [].
Definition short_sunset := two_days [] [] ["2024-06-01T21:03"%string] [].
Definition short_precip := two_days [] [] [] [0.5%float].
Definition short_uv := two_days [6.5%float] [] [] [].

(** The run printed one day and stopped at index 1 of a slice of length 1. *)
Definition stops_at_second_day (m : M unit) : Prop :=
  result m = inr (IndexOutOfRange 1 1)
  /\ List.length (lines (printed m)) = 1%nat.

Fixpoint contains (needle hay : string) : bool :=
  prefix needle hay
  || match hay with
     | EmptyString => false
     | String _ rest => contains needle rest
     end.

(** A provider that honours [temperature_unit]: two days of 10 and 15
    degrees Celsius, sent as 50 and 59 when Fahrenheit is asked for. *)
Definition honouring_provider (url : string) : string + string :=
  if prefix "https://geocoding-api.open-meteo.com/" url then inl "places"%string
  else if contains "&temperature_unit=fahrenheit" url
       then inl "two days, fahrenheit"%string
       else inl "two days, celsius"%string.

Definition oslo : GeoCodingResult.t :=
  GeoCodingResult.mk "Oslo" "59.91273" "10.74609" "Norway".

Definition honouring_forecast (body : string) : Response.t + string :=
  let days (t1 t2 : float) :=
    Response.mk
      (History.mk [t1; t2] [t1; t2] [] [] [] []
         ["2024-06-01"; "2024-06-02"]%string) in
  if String.eqb body "two days, fahrenheit" then inl (days 50 59)%float
  else inl (days 10 15)%float.

Definition paris_candidates : list GeoCodingResult.t :=
  [ GeoCodingResult.mk "Paris" "33.66094" "-95.55551" "United States";
    GeoCodingResult.mk "Paris" "48.85341" "2.3488" "france";
    GeoCodingResult.mk "Paris" "48.85341" "2.3488" "France";
    GeoCodingResult.mk "Paris 01" "48.8592" "2.3417" "France" ].

(** ** What a day's line carries, and where a run can stop *)

(** The place of a segment on its line. *)
Definition segment_rank (s : Segment) : nat :=
  match s with
  | SegSunrise _ => 0
  | SegSunset _ => 1
  | SegPrecip _ => 2
  | SegUVIndex _ => 3
  end.

(** The segments of day [i], read off the payload: for each option that is
    on, entry [i] of its array where there is one (and, for the two clock
    times, where the stamp parses). *)
Definition day_segments (Time : Type)
    (time_Parse : string -> string -> Time + string)
    (time_Format : Time -> string -> string) (h : History.t)
    (showPrecip showUV showSunrise showSunset : bool) (i : nat)
  : list Segment :=
  (if showSunrise then
     match nth_error (History.Sunrise h) i with
     | Some stamp =>
         match time_Parse "2006-01-02T15:04"%string stamp with
         | inl t => [SegSunrise (time_Format t "15:04"%string)]
         | inr _ => []
         end
     | None => []
     end
   else [])
  ++ (if showSunset then
        match nth_error (History.Sunset h) i with
        | Some stamp =>
            match time_Parse "2006-01-02T15:04"%string stamp with
            | inl t => [SegSunset (time_Format t "15:04"%string)]
            | inr _ => []
            end
        | None => []
        end
      else [])
  ++ (if showPrecip then
        match nth_error (History.Precip h) i with
        | Some v => [SegPrecip v]
        | None => []
        end
      else [])
  ++ (if showUV then
        match nth_error (History.UVIndex h) i with
        | Some v => [SegUVIndex v]
        | None => []
        end
      else []).

(** A slice of length [len] that the loop body reads at index [i] and that
    has no such entry: the temperatures, the dates, or a non-empty optional
    array whose option is on. *)
Definition out_of_reach (h : History.t)
    (showPrecip showUV showSunrise showSunset : bool) (i len : nat) : Prop :=
  (len <= i)%nat
  /\ (len = List.length (History.MaxTemps h)
      \/ len = List.length (History.World h)
      \/ (showSunrise = true /\ (0 < len)%nat
          /\ len = List.length (History.Sunrise h))
      \/ (showSunset = true /\ (0 < len)%nat
          /\ len = List.length (History.Sunset h))
      \/ (showPrecip = true /\ (0 < len)%nat
          /\ len = List.length (History.Precip h))
      \/ (showUV = true /\ (0 < len)%nat
          /\ len = List.length (History.UVIndex h))).

(** The dates cover the temperatures, and so does every non-empty optional
    array whose option is on. *)
Definition aligned_for (h : History.t)
    (showPrecip showUV showSunrise showSunset : bool) : Prop :=
  covers (History.World h) (History.MaxTemps h)
  /\ (showSunrise = true ->
      covers_or_empty (History.Sunrise h) (History.MaxTemps h))
  /\ (showSunset = true ->
      covers_or_empty (History.Sunset h) (History.MaxTemps h))
  /\ (showPrecip = true ->
      covers_or_empty (History.Precip h) (History.MaxTemps h))
  /\ (showUV = true ->
      covers_or_empty (History.UVIndex h) (History.MaxTemps h)).

(** Whether the option of a segment is on. *)
Definition segment_enabled (showPrecip showUV showSunrise showSunset : bool)
    (s : Segment) : bool :=
  match s with
  | SegSunrise _ => showSunrise
  | SegSunset _ => showSunset
  | SegPrecip _ => showPrecip
  | SegUVIndex _ => showUV
  end.

(** The flags read back from the text of [formatExtraForecastParams]. *)
Definition read_params (s : string) : ForecastParams.t :=
  ForecastParams.mk (contains ",precipitation_sum" s) (contains ",sunrise" s)
    (contains ",sunset" s) (contains ",uv_index_max" s)
    (contains "&temperature_unit=fahrenheit" s).

(** ** Providers and decoders that fail, and a command line *)

Definition unreachable_provider (url : string) : string + string :=
  inr "dial tcp: no route to host"%string.

(** Geocoding answers; the forecast service refuses the connection. *)
Definition forecast_down_provider (url : string) : string + string :=
  if prefix "https://geocoding-api.open-meteo.com/" url then inl "places"%string
  else inr "connection refused"%string.

Definition decode_fails {A} (body : string) : A + string :=
  inr "unexpected end of JSON input"%string.

Definition oslo_flags (f : bool) : Flags.t :=
  Flags.mk "Oslo" "Norway" true true false false f.

(** * Properties *)

(** ** The monad *)

Lemma bind_ret {A B} (a : A) (k : A -> M B) : bind (ret a) k = k a.
Proof. unfold bind, ret. destruct (k a). reflexivity. Qed.

Lemma bind_stop {A B} (h : Halt) (k : A -> M B) : bind (stop h) k = stop h.
Proof. reflexivity. Qed.

Lemma bind_Println {B} (x : Out) (k : unit -> M B) :
  bind (Println x) k = (x :: printed (k tt), result (k tt)).
Proof. unfold bind, Println, printed, result. destruct (k tt). reflexivity. Qed.

Lemma lines_app (a b : list Out) : lines (a ++ b) = lines a ++ lines b.
Proof.
  induction a as [|x a IH]; [reflexivity|].
  destruct x; simpl; rewrite IH; reflexivity.
Qed.

(** ** [createPattern] *)

Lemma createPattern_floored (n : Z) (b : bool) :
  1 <= n -> createPattern n b = ret (stars_blanks (Z.to_nat (Z.min n 5))).
Proof.
  intros Hn. unfold createPattern.
  destruct (n <? 0) eqn:Hneg; [apply Z.ltb_lt in Hneg; lia|].
  destruct (n >? 5) eqn:Hbig.
  - rewrite Z.gtb_gt in Hbig. rewrite Z.min_r by lia. reflexivity.
  - assert (Hle : n <= 5) by (rewrite Z.gtb_ltb in Hbig; apply Z.ltb_ge in Hbig; exact Hbig).
    rewrite Z.min_l by lia.
    assert (Hcases : n = 1 \/ n = 2 \/ n = 3 \/ n = 4 \/ n = 5) by lia.
    destruct Hcases as [->|[->|[->|[->| ->]]]]; reflexivity.
Qed.

Lemma intensity_stars_blanks (k : nat) :
  (k <= 5)%nat -> intensity (stars_blanks k) = k.
Proof.
  intros Hk.
  do 6 (destruct k as [|k]; [reflexivity|]). lia.
Qed.

(** ** Floating point: a difference [t - t] and what follows from it *)

Lemma sub_diag_zero_or_nan (t : float) : zero_or_nan (t - t).
Proof.
  unfold zero_or_nan. rewrite sub_spec. unfold SF64sub.
  destruct (Prim2SF t) as [s|s| |s m e].
  - left. exists false. destruct s; reflexivity.
  - right. destruct s; reflexivity.
  - right. reflexivity.
  - left. exists false. unfold SFsub. rewrite Z.sub_diag. reflexivity.
Qed.

Lemma zero_or_nan_div (a d : float) : zero_or_nan a -> zero_or_nan (a / d).
Proof.
  unfold zero_or_nan. rewrite div_spec. unfold SF64div.
  intros [[s Ha]|Ha]; rewrite Ha.
  - destruct (Prim2SF d) as [s'|s'| |s' m e]; simpl; eauto.
  - right. reflexivity.
Qed.

Lemma zero_or_nan_mul (a c : float) (sc : bool) (mc : positive) (ec : Z) :
  zero_or_nan a -> Prim2SF c = S754_finite sc mc ec -> zero_or_nan (a * c).
Proof.
  unfold zero_or_nan. rewrite mul_spec. unfold SF64mul.
  intros [[s Ha]|Ha] Hc; rewrite Ha, Hc; simpl; eauto.
Qed.

Lemma five_finite : exists s m e, Prim2SF 5 = S754_finite s m e.
Proof. vm_compute. eauto. Qed.

Lemma int_of_float64_zero (int_unrepresentable : float -> Z) (x : float) (s : bool) :
  Prim2SF x = S754_zero s -> int_of_float64 int_unrepresentable x = 0.
Proof.
  intros H. unfold int_of_float64, truncate. rewrite H. reflexivity.
Qed.

Lemma int_of_float64_nan (int_unrepresentable : float -> Z) (x : float) :
  Prim2SF x = S754_nan ->
  int_of_float64 int_unrepresentable x = int_unrepresentable nan.
Proof.
  intros H. unfold int_of_float64, truncate. rewrite H.
  f_equal. apply Prim2SF_inj. rewrite H. reflexivity.
Qed.

(** ** The first loop on a flat series *)

Lemma flat_fold_min (fah : bool) (c : float) (temps : list float) :
  (forall x, In x temps -> x = c) ->
  forall maxTemp,
    fst (fold_left (range_step fah) temps (display_temp fah c, maxTemp))
    = display_temp fah c.
Proof.
  induction temps as [|x temps IH]; intros Hflat maxTemp; [reflexivity|].
  simpl. rewrite (Hflat x) by (left; reflexivity).
  change (if fah then (c * 9 / 5 + 32)%float else c) with (display_temp fah c).
  destruct ((display_temp fah c =? 0)%float
            || (display_temp fah c <? display_temp fah c)%float);
    apply IH; intros y Hy; apply Hflat; right; exact Hy.
Qed.

Lemma flat_range_min (fah : bool) (c : float) (temps : list float) :
  temps <> [] ->
  (forall x, In x temps -> x = c) ->
  fst (temp_range fah temps) = display_temp fah c.
Proof.
  intros Hne Hflat. destruct temps as [|x temps]; [contradiction|].
  unfold temp_range. simpl. rewrite (Hflat x) by (left; reflexivity).
  change (if fah then (c * 9 / 5 + 32)%float else c) with (display_temp fah c).
  change ((0 =? 0)%float) with true. simpl.
  apply flat_fold_min. intros y Hy. apply Hflat. right. exact Hy.
Qed.

(** ** The first loop on a series of positive values *)

Lemma positive_is_not_zero (x : float) :
  (0 <? x)%float = true -> (x =? 0)%float = false.
Proof.
  rewrite ltb_spec, eqb_spec.
  change (Prim2SF 0) with (S754_zero false).
  destruct (Prim2SF x) as [s|s| |s m e]; try destruct s; simpl;
    intros H; try discriminate H; reflexivity.
Qed.

Lemma positive_fold (fah : bool) (rest : list float) :
  Forall (fun x => (0 <? display_temp fah x)%float = true) rest ->
  forall minTemp maxTemp,
    (0 <? minTemp)%float = true ->
    fold_left (range_step fah) rest (minTemp, maxTemp)
    = (fold_left (fun m x => if (x <? m)%float then x else m)
         (map (display_temp fah) rest) minTemp,
       fold_left (fun m x => if (m <? x)%float then x else m)
         (map (display_temp fah) rest) maxTemp).
Proof.
  induction 1 as [|x rest Hx _ IH]; intros minTemp maxTemp Hmin; [reflexivity|].
  simpl.
  change (if fah then (x * 9 / 5 + 32)%float else x) with (display_temp fah x).
  rewrite (positive_is_not_zero minTemp Hmin). simpl.
  apply IH. destruct (display_temp fah x <? minTemp)%float; assumption.
Qed.

(** X20. Where every converted value is positive, the first loop does end
    with the least and the greatest of them. *)
Lemma positive_series_range (fah : bool) (temps : list float) :
  temps <> [] ->
  Forall (fun x => (0 <? display_temp fah x)%float = true) temps ->
  true_min (map (display_temp fah) temps) = Some (fst (temp_range fah temps))
  /\ true_max (map (display_temp fah) temps) = Some (snd (temp_range fah temps)).
Proof.
  intros Hne Hpos. destruct temps as [|t rest]; [contradiction|].
  inversion Hpos as [|? ? Ht Hrest]; subst.
  unfold temp_range. simpl.
  change (if fah then (t * 9 / 5 + 32)%float else t) with (display_temp fah t).
  change ((0 =? 0)%float) with true. simpl. rewrite Ht.
  rewrite (positive_fold fah rest Hrest _ _ Ht). split; reflexivity.
Qed.

Lemma temp_range_celsius (temps : list float) :
  temp_range false temps = fold_left source_range_step temps (0%float, 0%float).
Proof.
  unfold temp_range. generalize (0%float, 0%float) as acc.
  induction temps as [|t temps IH]; intros acc; [reflexivity|].
  simpl. rewrite <- IH. destruct acc as [mn mx]. reflexivity.
Qed.

(** ** The second loop *)

Section Renderer.

Variable int_unrepresentable : float -> Z.
Variable Time : Type.
Variable time_Parse : string -> string -> Time + string.
Variable time_Format : Time -> string -> string.

Let render := render_day int_unrepresentable Time time_Parse time_Format.

Lemma floored_stars_pos (temp minTemp maxTemp : float) :
  1 <= floored_stars int_unrepresentable temp minTemp maxTemp.
Proof.
  unfold floored_stars.
  destruct (Z.leb_spec (int_of_float64 int_unrepresentable
    ((temp - minTemp) / (maxTemp - minTemp) * 5)%float) 0); lia.
Qed.

Ltac run_step :=
  first
    [ rewrite bind_ret
    | rewrite bind_stop
    | match goal with
      | |- context [if ?b then _ else _] => destruct b eqn:?
      end
    | match goal with
      | |- context [match nth_error ?l ?i with _ => _ end] =>
          destruct (nth_error l i) eqn:?
      end
    | match goal with
      | |- context [match time_Parse ?a ?b with _ => _ end] =>
          destruct (time_Parse a b) eqn:?
      end ].

Lemma render_day_shape resp fah showPrecip showUV showSunrise showSunset
    minTemp maxTemp i :
  (exists h,
      render resp fah showPrecip showUV showSunrise showSunset
        minTemp maxTemp i = ([], inr h))
  \/ (exists x day segs,
        nth_error (History.MaxTemps (Response.History resp)) i = Some x
        /\ nth_error (History.World (Response.History resp)) i = Some day
        /\ render resp fah showPrecip showUV showSunrise showSunset
             minTemp maxTemp i
           = ([PrintLine (day_line int_unrepresentable fah minTemp maxTemp x day segs)], inl tt)).
Proof.
  unfold render, render_day, index.
  destruct (nth_error (History.MaxTemps (Response.History resp)) i)
    as [x|] eqn:Hx; [|left; eexists; reflexivity].
  rewrite bind_ret.
  change (if fah then (x * 9 / 5 + 32)%float else x) with (display_temp fah x).
  change (if fah then "F"%string else "C"%string) with (display_unit fah).
  match goal with
  | |- context [createPattern ?s true] =>
      change s with
        (floored_stars int_unrepresentable (display_temp fah x) minTemp maxTemp)
  end.
  rewrite createPattern_floored by apply floored_stars_pos.
  rewrite bind_ret.
  destruct (nth_error (History.World (Response.History resp)) i)
    as [day|] eqn:Hday; [|left; eexists; reflexivity].
  rewrite bind_ret.
  set (pat := stars_blanks _).
  set (deg := int_of_float64 _ _).
  set (u := display_unit _).
  repeat run_step;
    solve [ left; eexists; reflexivity
          | right; exists x, day; eexists; repeat split;
            unfold append_segment; reflexivity ].
Qed.

(** A day at the computed minimum: the numerator is [+0] or NaN, and so is
    the product. *)
Lemma floored_stars_at_min (t maxTemp : float) :
  int_unrepresentable nan <= 0 ->
  floored_stars int_unrepresentable t t maxTemp = 1.
Proof.
  intros Hnan. unfold floored_stars.
  destruct five_finite as (sc & mc & ec & Hc).
  destruct (zero_or_nan_mul _ 5%float sc mc ec
              (zero_or_nan_div _ (maxTemp - t)%float (sub_diag_zero_or_nan t))
              Hc) as [[s Hz]|Hn].
  - rewrite (int_of_float64_zero int_unrepresentable _ s Hz). reflexivity.
  - rewrite (int_of_float64_nan int_unrepresentable _ Hn).
    destruct (Z.leb_spec (int_unrepresentable nan) 0); [reflexivity|lia].
Qed.

Lemma render_day_aligned resp fah showPrecip showUV showSunrise showSunset
    minTemp maxTemp i :
  aligned (Response.History resp) ->
  (i < List.length (History.MaxTemps (Response.History resp)))%nat ->
  exists l,
    render resp fah showPrecip showUV showSunrise showSunset
      minTemp maxTemp i = ([PrintLine l], inl tt).
Proof.
  intros (HW & HSr & HSs & HP & HU) Hi.
  unfold covers_or_empty, covers in *.
  unfold render, render_day, index.
  destruct (nth_error (History.MaxTemps (Response.History resp)) i)
    as [x|] eqn:Hx; [|apply nth_error_None in Hx; lia].
  rewrite bind_ret.
  match goal with
  | |- context [createPattern ?s true] =>
      change s with
        (floored_stars int_unrepresentable (display_temp fah x) minTemp maxTemp)
  end.
  rewrite createPattern_floored by apply floored_stars_pos.
  rewrite bind_ret.
  destruct (nth_error (History.World (Response.History resp)) i)
    as [day|] eqn:Hday; [|apply nth_error_None in Hday; lia].
  rewrite bind_ret.
  repeat run_step;
    try solve [ eexists; reflexivity ];
    exfalso;
    repeat match goal with
      | H : nth_error _ _ = None |- _ => apply nth_error_None in H
      | H : _ && _ = true |- _ => apply andb_prop in H; destruct H
      | H : (0 <? _)%nat = true |- _ => apply Nat.ltb_lt in H
      end;
    repeat match goal with
      | H : ?l = [] \/ _ |- _ =>
          destruct H as [H|H]; [rewrite H in *; simpl in *|]
      end;
    lia.
Qed.

End Renderer.

(** ** Loops of day lines *)

Lemma for_loop_nth (body : nat -> M unit) :
  (forall j,
      (exists h, body j = ([], inr h))
      \/ (exists l, body j = ([PrintLine l], inl tt))) ->
  forall n i k l,
    nth_error (lines (printed (for_loop body n i))) k = Some l ->
    (k < n)%nat /\ body (i + k)%nat = ([PrintLine l], inl tt).
Proof.
  intros Hbody n.
  induction n as [|n IH]; intros i k l Hk.
  - destruct k; discriminate.
  - simpl in Hk. destruct (Hbody i) as [[h Hi]|[l0 Hi]].
    + rewrite Hi in Hk. destruct k; discriminate.
    + rewrite Hi in Hk. unfold bind, printed in Hk.
      destruct (for_loop body n (S i)) as [o r] eqn:Hrest.
      simpl in Hk. destruct k as [|k].
      * injection Hk as <-. rewrite Nat.add_0_r. split; [lia|exact Hi].
      * simpl in Hk. specialize (IH (S i) k l).
        rewrite Hrest in IH. destruct (IH Hk) as [Hlt Hb].
        split; [lia|]. rewrite Nat.add_succ_r. exact Hb.
Qed.

Lemma for_loop_complete (body : nat -> M unit) (n : nat) :
  forall i,
    (forall j, (i <= j < i + n)%nat -> exists l, body j = ([PrintLine l], inl tt)) ->
    result (for_loop body n i) = inl tt
    /\ List.length (lines (printed (for_loop body n i))) = n.
Proof.
  induction n as [|n IH]; intros i Hbody.
  - split; reflexivity.
  - simpl. destruct (Hbody i) as [l Hi]; [lia|]. rewrite Hi.
    destruct (IH (S i)) as [Hr Hl]; [intros j Hj; apply Hbody; lia|].
    unfold bind, printed, result in *.
    destruct (for_loop body n (S i)) as [o r]. simpl in *.
    split; [exact Hr|]. rewrite Hl. reflexivity.
Qed.

(** ** [processJsonData] *)

Section Rendering.

Variable int_unrepresentable : float -> Z.
Variable Unmarshal_Response : string -> Response.t + string.
Variable Time : Type.
Variable time_Parse : string -> string -> Time + string.
Variable time_Format : Time -> string -> string.

Let run :=
  processJsonData int_unrepresentable Unmarshal_Response Time time_Parse
    time_Format.

(** The [k]-th line printed is the line of day [k]. *)
Lemma processJsonData_line jsonData resp fah showPrecip showUV showSunrise
    showSunset k l :
  Unmarshal_Response jsonData = inl resp ->
  nth_error
    (lines (printed (run jsonData fah showPrecip showUV showSunrise showSunset)))
    k = Some l ->
  exists x day segs,
    nth_error (History.MaxTemps (Response.History resp)) k = Some x
    /\ nth_error (History.World (Response.History resp)) k = Some day
    /\ l = day_line int_unrepresentable fah
             (fst (temp_range fah (History.MaxTemps (Response.History resp))))
             (snd (temp_range fah (History.MaxTemps (Response.History resp))))
             x day segs.
Proof.
  intros Hdec Hk. unfold run, processJsonData in Hk. rewrite Hdec in Hk.
  destruct (temp_range fah (History.MaxTemps (Response.History resp)))
    as [minTemp maxTemp].
  apply for_loop_nth in Hk.
  - destruct Hk as [_ Hk]. simpl in Hk.
    destruct (render_day_shape int_unrepresentable Time time_Parse time_Format
                resp fah showPrecip showUV showSunrise showSunset
                minTemp maxTemp k)
      as [[h Hh]|(x & day & segs & Hx & Hday & Hl)].
    + rewrite Hh in Hk. discriminate.
    + rewrite Hl in Hk. injection Hk as <-.
      exists x, day, segs. auto.
  - intros j.
    destruct (render_day_shape int_unrepresentable Time time_Parse time_Format
                resp fah showPrecip showUV showSunrise showSunset
                minTemp maxTemp j)
      as [[h Hh]|(x & day & segs & _ & _ & Hl)].
    + left. exists h. exact Hh.
    + right. eexists. exact Hl.
Qed.

(** On an aligned payload the run reaches its end and prints one line per
    day. *)
Lemma processJsonData_completes jsonData resp fah showPrecip showUV
    showSunrise showSunset :
  Unmarshal_Response jsonData = inl resp ->
  aligned (Response.History resp) ->
  result (run jsonData fah showPrecip showUV showSunrise showSunset) = inl tt
  /\ List.length
       (lines (printed
                 (run jsonData fah showPrecip showUV showSunrise showSunset)))
     = List.length (History.MaxTemps (Response.History resp)).
Proof.
  intros Hdec Hal. unfold run, processJsonData. rewrite Hdec.
  destruct (temp_range fah (History.MaxTemps (Response.History resp)))
    as [minTemp maxTemp].
  apply for_loop_complete. intros j Hj.
  apply render_day_aligned; [exact Hal|lia].
Qed.

End Rendering.

(** * The renderer's claims *)

Section RendererClaims.

Variable int_unrepresentable : float -> Z.
Variable Unmarshal_Response : string -> Response.t + string.
Variable Time : Type.
Variable time_Parse : string -> string -> Time + string.
Variable time_Format : Time -> string -> string.

Let run :=
  processJsonData int_unrepresentable Unmarshal_Response Time time_Parse
    time_Format.

(** C2. Every day line that [processJsonData] prints, for every payload and
    every setting of the options, shows an intensity between 1 and 5: its
    pattern is that many asterisks followed by blanks up to width 5. *)
Theorem intensity_between_one_and_five jsonData fah showPrecip showUV
    showSunrise showSunset :
  Forall
    (fun l =>
       (1 <= intensity (l_pattern l) <= 5)%nat
       /\ l_pattern l = stars_blanks (intensity (l_pattern l)))
    (lines (printed (run jsonData fah showPrecip showUV showSunrise showSunset))).
Proof.
  destruct (Unmarshal_Response jsonData) as [resp|err] eqn:Hdec.
  - apply Forall_forall. intros l Hl.
    apply In_nth_error in Hl. destruct Hl as [k Hk].
    destruct (processJsonData_line _ _ _ _ _ _ _ _ _ _ _ _ _ _ Hdec Hk)
      as (x & day & segs & _ & _ & ->).
    unfold day_line. cbn [l_pattern].
    set (mn := fst _). set (mx := snd _).
    pose proof (floored_stars_pos int_unrepresentable (display_temp fah x) mn mx)
      as Hpos.
    rewrite intensity_stars_blanks by lia.
    split; [lia|reflexivity].
  - unfold run, processJsonData. rewrite Hdec. constructor.
Qed.

(** C10. When the date array and every non-empty optional array are at
    least as long as the temperature array, every index of the render loop
    is in bounds: the run ends normally, having printed one line per day,
    whatever the options. *)
Theorem aligned_payload_stays_in_bounds jsonData resp fah showPrecip showUV
    showSunrise showSunset :
  Unmarshal_Response jsonData = inl resp ->
  aligned (Response.History resp) ->
  result (run jsonData fah showPrecip showUV showSunrise showSunset) = inl tt
  /\ List.length
       (lines (printed
                 (run jsonData fah showPrecip showUV showSunrise showSunset)))
     = List.length (History.MaxTemps (Response.History resp)).
Proof.
  intros Hdec Hal. apply processJsonData_completes; assumption.
Qed.

(** C1, as the code has it. On a series whose max-temperature is the same
    every day, and where [int] of NaN is not positive (amd64, arm64), every
    day printed is given intensity 1; the zero range stops nothing: on an
    aligned payload the run ends normally with one line per day. *)
Theorem flat_series_shows_one_star jsonData resp fah showPrecip showUV
    showSunrise showSunset c :
  int_unrepresentable nan <= 0 ->
  Unmarshal_Response jsonData = inl resp ->
  (forall x, In x (History.MaxTemps (Response.History resp)) -> x = c) ->
  Forall (fun l => intensity (l_pattern l) = 1%nat)
    (lines (printed
              (run jsonData fah showPrecip showUV showSunrise showSunset)))
  /\ (aligned (Response.History resp) ->
      result (run jsonData fah showPrecip showUV showSunrise showSunset)
      = inl tt
      /\ List.length
           (lines (printed
                     (run jsonData fah showPrecip showUV showSunrise
                        showSunset)))
         = List.length (History.MaxTemps (Response.History resp))).
Proof.
  intros Hnan Hdec Hflat. split.
  - apply Forall_forall. intros l Hl.
    apply In_nth_error in Hl. destruct Hl as [k Hk].
    destruct (processJsonData_line _ _ _ _ _ _ _ _ _ _ _ _ _ _ Hdec Hk)
      as (x & day & segs & Hx & _ & ->).
    assert (Hne : History.MaxTemps (Response.History resp) <> [])
      by (intros He; rewrite He in Hx; destruct k; discriminate).
    rewrite (Hflat x) by (eapply nth_error_In; exact Hx).
    unfold day_line. cbn [l_pattern].
    rewrite (flat_range_min fah c _ Hne Hflat).
    rewrite floored_stars_at_min by exact Hnan.
    reflexivity.
  - intros Hal. apply processJsonData_completes; assumption.
Qed.

(** C9. With [useFahrenheit=false] the [k]-th line is computed from the
    source value of day [k] itself: the degrees shown are its integer part,
    the unit is C, and the intensity is the floored, capped ratio of that
    value within the range scanned over the source values. *)
Theorem celsius_values_are_used_unchanged jsonData resp showPrecip showUV
    showSunrise showSunset k l :
  Unmarshal_Response jsonData = inl resp ->
  nth_error
    (lines (printed (run jsonData false showPrecip showUV showSunrise showSunset)))
    k = Some l ->
  exists x,
    nth_error (History.MaxTemps (Response.History resp)) k = Some x
    /\ l_degrees l = int_of_float64 int_unrepresentable x
    /\ l_unit l = "C"%string
    /\ let '(minTemp, maxTemp) :=
         fold_left source_range_step
           (History.MaxTemps (Response.History resp)) (0%float, 0%float) in
       intensity (l_pattern l)
       = Z.to_nat
           (Z.min (floored_stars int_unrepresentable x minTemp maxTemp) 5).
Proof.
  intros Hdec Hk.
  destruct (processJsonData_line _ _ _ _ _ _ _ _ _ _ _ _ _ _ Hdec Hk)
    as (x & day & segs & Hx & _ & ->).
  exists x. split; [exact Hx|]. split; [reflexivity|]. split; [reflexivity|].
  rewrite <- temp_range_celsius.
  destruct (temp_range false (History.MaxTemps (Response.History resp)))
    as [minTemp maxTemp].
  unfold day_line. cbn [l_pattern fst snd display_temp].
  pose proof (floored_stars_pos int_unrepresentable x minTemp maxTemp) as Hpos.
  apply intensity_stars_blanks. lia.
Qed.

End RendererClaims.

(** ** Evaluated runs of the renderer *)

Lemma flat_series_shows_one_star_witness :
  amd64_unrepresentable nan <= 0
  /\ decode_as flat_week EmptyString = inl flat_week
  /\ (forall x, In x (History.MaxTemps (Response.History flat_week)) ->
      x = 20%float)
  /\ aligned (Response.History flat_week)
  /\ Forall (fun l => intensity (l_pattern l) = 1%nat)
       (lines (printed
          (processJsonData amd64_unrepresentable (decode_as flat_week) string
             sample_Parse sample_Format EmptyString true true true true true)))
  /\ result
       (processJsonData amd64_unrepresentable (decode_as flat_week) string
          sample_Parse sample_Format EmptyString true true true true true)
     = inl tt
  /\ List.length
       (lines (printed
          (processJsonData amd64_unrepresentable (decode_as flat_week) string
             sample_Parse sample_Format EmptyString true true true true true)))
     = 3%nat.
Proof.
  assert (Hnan : amd64_unrepresentable nan <= 0) by (vm_compute; discriminate).
  assert (Hflat : forall x,
             In x (History.MaxTemps (Response.History flat_week)) ->
             x = 20%float).
  { simpl. intros x [H|[H|[H|[]]]]; symmetry; exact H. }
  assert (Hal : aligned (Response.History flat_week)).
  { unfold aligned, covers_or_empty, covers. simpl.
    repeat split; try (left; reflexivity); try lia. }
  destruct (flat_series_shows_one_star amd64_unrepresentable
              (decode_as flat_week) string sample_Parse sample_Format
              EmptyString flat_week true true true true true 20%float
              Hnan eq_refl Hflat) as [Hone Hrun].
  split; [exact Hnan|]. split; [reflexivity|]. split; [exact Hflat|].
  split; [exact Hal|]. split; [exact Hone|]. exact (Hrun Hal).
Defined.

(** C1, as the spec states it, fails: on a week of 20, 20, 20 degrees the
    computed minimum and maximum are both 20 and every day is given
    intensity 1, not 5 (amd64 and arm64 alike). *)
Lemma flat_week_is_not_five_stars :
  temp_range false (History.MaxTemps (Response.History flat_week))
  = (20%float, 20%float)
  /\ map (fun l => intensity (l_pattern l))
       (lines (printed
          (processJsonData amd64_unrepresentable (decode_as flat_week) string
             sample_Parse sample_Format EmptyString
             false false false false false)))
     = [1; 1; 1]%nat
  /\ map (fun l => intensity (l_pattern l))
       (lines (printed
          (processJsonData arm64_unrepresentable (decode_as flat_week) string
             sample_Parse sample_Format EmptyString
             false false false false false)))
     = [1; 1; 1]%nat
  /\ ~ Forall (fun l => intensity (l_pattern l) = 5%nat)
       (lines (printed
          (processJsonData amd64_unrepresentable (decode_as flat_week) string
             sample_Parse sample_Format EmptyString
             false false false false false))).
Proof.
  repeat split; try (vm_compute; reflexivity).
  intros H. vm_compute in H. inversion H as [|l ls H1 _]. discriminate H1.
Qed.

Lemma aligned_payload_stays_in_bounds_witness :
  decode_as rising_week EmptyString = inl rising_week
  /\ aligned (Response.History rising_week)
  /\ (let m :=
        processJsonData amd64_unrepresentable (decode_as rising_week) string
          sample_Parse sample_Format EmptyString true true true true true in
      result m = inl tt /\ List.length (lines (printed m)) = 3%nat).
Proof.
  assert (Hal : aligned (Response.History rising_week)).
  { unfold aligned, covers_or_empty, covers. simpl.
    repeat split; try (left; reflexivity); try right; try lia. }
  split; [reflexivity|]. split; [exact Hal|].
  apply (aligned_payload_stays_in_bounds amd64_unrepresentable
           (decode_as rising_week) string sample_Parse sample_Format
           EmptyString rising_week true true true true true eq_refl Hal).
Defined.

Lemma celsius_values_are_used_unchanged_witness :
  decode_as rising_week EmptyString = inl rising_week
  /\ nth_error
       (lines (printed
          (processJsonData amd64_unrepresentable (decode_as rising_week) string
             sample_Parse sample_Format EmptyString
             false true true false false)))
       1
     = Some (mkLine "**   " 15 "C" "2024-06-02"
               [SegPrecip 1.5%float; SegUVIndex 6%float])
  /\ exists x,
       nth_error (History.MaxTemps (Response.History rising_week)) 1 = Some x
       /\ 15 = int_of_float64 amd64_unrepresentable x
       /\ "C"%string = "C"%string
       /\ let '(minTemp, maxTemp) :=
            fold_left source_range_step
              (History.MaxTemps (Response.History rising_week))
              (0%float, 0%float) in
          2%nat
          = Z.to_nat
              (Z.min (floored_stars amd64_unrepresentable x minTemp maxTemp) 5).
Proof.
  split; [reflexivity|]. split; [reflexivity|].
  apply (celsius_values_are_used_unchanged amd64_unrepresentable
           (decode_as rising_week) string sample_Parse sample_Format
           EmptyString rising_week true true false false 1%nat
           (mkLine "**   " 15 "C" "2024-06-02"
              [SegPrecip 1.5%float; SegUVIndex 6%float])
           eq_refl eq_refl).
Defined.

(** C8. For the series 10, 15, 20 degrees Celsius without [-f], the first
    loop ends with minTemp = 10 and maxTemp = 20, and the three days are
    given intensities 1, 2 and 5, whatever the other options, the conversion
    of unrepresentable values and the clock. *)
Theorem ten_fifteen_twenty
    (int_unrepresentable : float -> Z) (Time : Type)
    (time_Parse : string -> string -> Time + string)
    (time_Format : Time -> string -> string)
    (showPrecip showUV showSunrise showSunset : bool) :
  temp_range false (History.MaxTemps (Response.History rising_week))
  = (10%float, 20%float)
  /\ map (fun l => intensity (l_pattern l))
       (lines (printed
          (processJsonData int_unrepresentable (decode_as rising_week) Time
             time_Parse time_Format EmptyString
             false showPrecip showUV showSunrise showSunset)))
     = [1; 2; 5]%nat.
Proof.
  split; [vm_compute; reflexivity|].
  destruct showPrecip, showUV, showSunrise, showSunset; vm_compute; reflexivity.
Qed.

(** C3 fails on the code. With every value negative the first loop leaves
    maxTemp at 0, which no day has; with a zero in the series, the minimum
    is dropped at the next turn of the loop. *)
Theorem range_is_not_the_true_range :
  temp_range false frost_week = ((-10)%float, 0%float)
  /\ true_max frost_week = Some (-5)%float
  /\ temp_range false thaw_week = (10%float, 10%float)
  /\ true_min thaw_week = Some 0%float.
Proof. repeat split; vm_compute; reflexivity. Qed.

(** C5 fails on the code. An enabled optional array with one entry, under a
    temperature array of two: the first day is printed, then the run stops
    at [arr[1]] with "index out of range [1] with length 1"; this for each of
    the four optional arrays. Empty arrays are passed over: the same two days
    with no optional array at all are printed without segments. *)
Theorem short_optional_array_panics
    (int_unrepresentable : float -> Z) (Time : Type)
    (time_Parse : string -> string -> Time + string)
    (time_Format : Time -> string -> string) :
  stops_at_second_day
    (processJsonData int_unrepresentable (decode_as short_sunrise) Time
       time_Parse time_Format EmptyString false false false true false)
  /\ stops_at_second_day
       (processJsonData int_unrepresentable (decode_as short_sunset) Time
          time_Parse time_Format EmptyString false false false false true)
  /\ stops_at_second_day
       (processJsonData int_unrepresentable (decode_as short_precip) Time
          time_Parse time_Format EmptyString false true false false false)
  /\ stops_at_second_day
       (processJsonData int_unrepresentable (decode_as short_uv) Time
          time_Parse time_Format EmptyString false false true false false)
  /\ processJsonData int_unrepresentable (decode_as (two_days [] [] [] [])) Time
       time_Parse time_Format EmptyString false true true true true
     = ([PrintLine (mkLine "*    " 21 "C" "2024-06-01" []);
         PrintLine (mkLine "*****" 23 "C" "2024-06-02" [])], inl tt).
Proof.
  unfold stops_at_second_day.
  repeat split; vm_compute;
    try (destruct (time_Parse _ _)); reflexivity.
Qed.

(** * The fetcher and the unit of the report *)

(** C4 fails on the code. With [-f] the request itself carries
    [temperature_unit=fahrenheit], and [processJsonData] converts what comes
    back once more: against a provider that honours the parameter, days of
    10 and 15 degrees Celsius are reported as 122 and 138 degrees F, where
    C * 9/5 + 32 gives 50 and 59. *)
Theorem fahrenheit_is_requested_and_converted_again
    (int_unrepresentable : float -> Z) (url_PathEscape : string -> string)
    (Time : Type) (time_Parse : string -> string -> Time + string)
    (time_Format : Time -> string -> string) :
  (forall p sunrise sunset uv,
      formatExtraForecastParams (ForecastParams.mk p sunrise sunset uv true)
      = (formatExtraForecastParams (ForecastParams.mk p sunrise sunset uv false)
           ++ "&temperature_unit=fahrenheit")%string)
  /\ map (fun l => (l_degrees l, l_unit l))
       (lines (printed
          (main int_unrepresentable honouring_provider url_PathEscape
             (decode_as (GeoCodingResponse.mk [oslo])) honouring_forecast
             Time time_Parse time_Format
             (Flags.mk "Oslo" "Norway" false false false false true))))
     = [(122, "F"%string); (138, "F"%string)]
  /\ map (fun c => int_of_float64 int_unrepresentable (display_temp true c))
       [10; 15]%float
     = [50; 59].
Proof.
  split; [|split].
  - intros p sunrise sunset uv. destruct p, sunrise, sunset, uv; reflexivity.
  - vm_compute. reflexivity.
  - vm_compute. reflexivity.
Qed.

(** * The location resolver *)

Lemma first_match_app (pre post : list GeoCodingResult.t)
    (c : GeoCodingResult.t) (country : string) :
  (forall r, In r pre -> GeoCodingResult.Country r <> country) ->
  GeoCodingResult.Country c = country ->
  first_match (pre ++ c :: post) country
  = Some (GeoCodingResult.Latitude c, GeoCodingResult.Longitude c).
Proof.
  intros Hpre Hc. induction pre as [|r pre IH]; simpl.
  - rewrite Hc, String.eqb_refl. reflexivity.
  - destruct (String.eqb_spec (GeoCodingResult.Country r) country) as [He|_].
    + exfalso. apply (Hpre r); [left; reflexivity|exact He].
    + apply IH. intros r' Hr'. apply Hpre. right. exact Hr'.
Qed.

Lemma first_match_none (results : list GeoCodingResult.t) (country : string) :
  (forall r, In r results -> GeoCodingResult.Country r <> country) ->
  first_match results country = None.
Proof.
  intros Hno. induction results as [|r results IH]; simpl; [reflexivity|].
  destruct (String.eqb_spec (GeoCodingResult.Country r) country) as [He|_].
  - exfalso. apply (Hno r); [left; reflexivity|exact He].
  - apply IH. intros r' Hr'. apply Hno. right. exact Hr'.
Qed.

Section ResolverClaims.

Variable http_Get : string -> string + string.
Variable url_PathEscape : string -> string.
Variable Unmarshal_GeoCodingResponse : string -> GeoCodingResponse.t + string.

Let resolve :=
  FindCityLocation http_Get url_PathEscape Unmarshal_GeoCodingResponse.

(** C6. Whatever list of candidates the provider returns,
    [FindCityLocation] returns the latitude and longitude of the first
    candidate, in the provider's order, whose country is the very string
    asked for; candidates before it that differ in any character are passed
    over and candidates after it play no part. *)
Theorem first_candidate_of_the_country_wins city body pre c post :
  http_Get (geocodingUrl url_PathEscape city) = inl body ->
  Unmarshal_GeoCodingResponse body
  = inl (GeoCodingResponse.mk (pre ++ c :: post)) ->
  (forall r, In r pre -> GeoCodingResult.Country r <> City.Country city) ->
  GeoCodingResult.Country c = City.Country city ->
  resolve city
  = ret (GeoCodingResult.Latitude c, GeoCodingResult.Longitude c, None).
Proof.
  intros Hget Hdec Hpre Hc. unfold resolve, FindCityLocation.
  rewrite Hget, Hdec. simpl.
  rewrite (first_match_app pre post c _ Hpre Hc). reflexivity.
Qed.

(** C7, as the code has it. When no candidate has the country asked for,
    [FindCityLocation] returns empty coordinates and the error whose text
    is "Could not find a proper location match for <city> of country
    <country>", with a capital C, for the city and country asked for. *)
Theorem no_candidate_gives_the_no_match_error city body results :
  http_Get (geocodingUrl url_PathEscape city) = inl body ->
  Unmarshal_GeoCodingResponse body = inl (GeoCodingResponse.mk results) ->
  (forall r, In r results -> GeoCodingResult.Country r <> City.Country city) ->
  resolve city
  = ret (EmptyString, EmptyString,
         Some ("Could not find a proper location match for "
                 ++ City.Name city ++ " of country " ++ City.Country city)%string).
Proof.
  intros Hget Hdec Hno. unfold resolve, FindCityLocation.
  rewrite Hget, Hdec. simpl.
  rewrite (first_match_none results _ Hno). reflexivity.
Qed.

End ResolverClaims.

Lemma first_candidate_of_the_country_wins_witness :
  let city := City.mk "Paris" "France" in
  let pre := firstn 2 paris_candidates in
  let c := GeoCodingResult.mk "Paris" "48.85341" "2.3488" "France" in
  let post := skipn 3 paris_candidates in
  honouring_provider (geocodingUrl (fun s => s) city) = inl "places"%string
  /\ decode_as (GeoCodingResponse.mk paris_candidates) "places"%string
     = inl (GeoCodingResponse.mk (pre ++ c :: post))
  /\ (forall r, In r pre -> GeoCodingResult.Country r <> City.Country city)
  /\ GeoCodingResult.Country c = City.Country city
  /\ FindCityLocation honouring_provider (fun s => s)
       (decode_as (GeoCodingResponse.mk paris_candidates)) city
     = ret ("48.85341"%string, "2.3488"%string, None).
Proof.
  intros city pre c post.
  assert (Hpre : forall r,
             In r pre -> GeoCodingResult.Country r <> City.Country city).
  { intros r [<-|[<-|[]]]; simpl; discriminate. }
  split; [reflexivity|]. split; [reflexivity|].
  split; [exact Hpre|]. split; [reflexivity|].
  apply (first_candidate_of_the_country_wins honouring_provider (fun s => s)
           (decode_as (GeoCodingResponse.mk paris_candidates)) city
           "places"%string pre c post eq_refl eq_refl Hpre eq_refl).
Defined.

Lemma no_candidate_gives_the_no_match_error_witness :
  let city := City.mk "Paris" "Texas" in
  honouring_provider (geocodingUrl (fun s => s) city) = inl "places"%string
  /\ decode_as (GeoCodingResponse.mk paris_candidates) "places"%string
     = inl (GeoCodingResponse.mk paris_candidates)
  /\ (forall r,
         In r paris_candidates ->
         GeoCodingResult.Country r <> City.Country city)
  /\ FindCityLocation honouring_provider (fun s => s)
       (decode_as (GeoCodingResponse.mk paris_candidates)) city
     = ret (EmptyString, EmptyString,
            Some "Could not find a proper location match for Paris of country Texas"%string).
Proof.
  intros city.
  assert (Hno : forall r,
             In r paris_candidates ->
             GeoCodingResult.Country r <> City.Country city).
  { intros r [<-|[<-|[<-|[<-|[]]]]]; simpl; discriminate. }
  split; [reflexivity|]. split; [reflexivity|]. split; [exact Hno|].
  apply (no_candidate_gives_the_no_match_error honouring_provider (fun s => s)
           (decode_as (GeoCodingResponse.mk paris_candidates)) city
           "places"%string paris_candidates eq_refl eq_refl Hno).
Defined.

(** C7, as the spec states it, fails: the text returned for Paris, Texas is
    not the one that starts with a small c. *)
Lemma no_match_text_is_capitalised :
  exists msg,
    result
      (FindCityLocation honouring_provider (fun s => s)
         (decode_as (GeoCodingResponse.mk paris_candidates))
         (City.mk "Paris" "Texas"))
    = inl (EmptyString, EmptyString, Some msg)
    /\ msg
       <> "could not find a proper location match for Paris of country Texas"%string.
Proof. eexists. split; [vm_compute; reflexivity|discriminate]. Qed.

(** * Further properties of the renderer *)

Lemma empty_slice_None {A} (xs : list A) (i : nat) :
  (0 <? List.length xs)%nat = false -> nth_error xs i = None.
Proof.
  intros H. apply Nat.ltb_ge in H. apply nth_error_None. lia.
Qed.

Section DayCases.

Variable int_unrepresentable : float -> Z.
Variable Time : Type.
Variable time_Parse : string -> string -> Time + string.
Variable time_Format : Time -> string -> string.

Let render := render_day int_unrepresentable Time time_Parse time_Format.

Ltac day_step :=
  first
    [ rewrite bind_ret
    | rewrite bind_stop
    | match goal with
      | |- context [if ?b then _ else _] => destruct b eqn:?
      end
    | match goal with
      | |- context [match nth_error ?l ?i with _ => _ end] =>
          destruct (nth_error l i) eqn:?
      end
    | match goal with
      | |- context [match time_Parse ?a ?b with _ => _ end] =>
          destruct (time_Parse a b) eqn:?
      end ].

(** The body of the loop at index [i]: it stops on a slice that has no entry
    [i], printing nothing, or prints the one line of day [i]. *)
Lemma render_day_cases resp fah showPrecip showUV showSunrise showSunset
    minTemp maxTemp i :
  (exists len,
      render resp fah showPrecip showUV showSunrise showSunset
        minTemp maxTemp i = ([], inr (IndexOutOfRange i len))
      /\ out_of_reach (Response.History resp) showPrecip showUV showSunrise
           showSunset i len)
  \/ (exists x day,
        nth_error (History.MaxTemps (Response.History resp)) i = Some x
        /\ nth_error (History.World (Response.History resp)) i = Some day
        /\ render resp fah showPrecip showUV showSunrise showSunset
             minTemp maxTemp i
           = ([PrintLine
                 (day_line int_unrepresentable fah minTemp maxTemp x day
                    (day_segments Time time_Parse time_Format
                       (Response.History resp) showPrecip showUV showSunrise
                       showSunset i))],
              inl tt)).
Proof.
  unfold render, render_day, index, out_of_reach.
  destruct (nth_error (History.MaxTemps (Response.History resp)) i)
    as [x|] eqn:Hx.
  2:{ left. eexists. split; [reflexivity|].
      apply nth_error_None in Hx. split; [exact Hx|]. left. reflexivity. }
  rewrite bind_ret.
  match goal with
  | |- context [createPattern ?s true] =>
      change s with
        (floored_stars int_unrepresentable (display_temp fah x) minTemp maxTemp)
  end.
  rewrite createPattern_floored by apply floored_stars_pos.
  rewrite bind_ret.
  destruct (nth_error (History.World (Response.History resp)) i)
    as [day|] eqn:Hday.
  2:{ left. eexists. split; [reflexivity|].
      apply nth_error_None in Hday. split; [exact Hday|].
      right. left. reflexivity. }
  rewrite bind_ret.
  change (if fah then (x * 9 / 5 + 32)%float else x) with (display_temp fah x).
  change (if fah then "F"%string else "C"%string) with (display_unit fah).
  unfold day_line.
  set (pat := stars_blanks _).
  set (deg := int_of_float64 _ _).
  set (u := display_unit _).
  destruct showSunrise, showSunset, showPrecip, showUV; cbn [andb];
    repeat day_step;
    first
      [ left; eexists; split; [reflexivity|];
        split; [apply nth_error_None; assumption|];
        repeat match goal with
          | H : (0 <? _)%nat = true |- _ => apply Nat.ltb_lt in H
          end;
        solve [intuition auto]
      | right; exists x, day; split; [reflexivity|]; split; [reflexivity|];
        repeat match goal with
          | H : (0 <? _)%nat = false |- _ =>
              apply (fun xs => @empty_slice_None _ xs i) in H
          end;
        unfold day_segments, append_segment;
        repeat match goal with
          | H : nth_error _ _ = _ |- _ => rewrite H; clear H
          | H : time_Parse _ _ = _ |- _ => rewrite H; clear H
          end;
        reflexivity ].
Qed.

End DayCases.

Lemma day_segments_in_order (Time : Type)
    (time_Parse : string -> string -> Time + string)
    (time_Format : Time -> string -> string) (h : History.t)
    (showPrecip showUV showSunrise showSunset : bool) (i : nat) :
  StronglySorted lt
    (map segment_rank
       (day_segments Time time_Parse time_Format h showPrecip showUV
          showSunrise showSunset i))
  /\ Forall
       (fun s =>
          segment_enabled showPrecip showUV showSunrise showSunset s = true)
       (day_segments Time time_Parse time_Format h showPrecip showUV
          showSunrise showSunset i).
Proof.
  unfold day_segments.
  destruct showSunrise, showSunset, showPrecip, showUV;
    repeat match goal with
      | |- context [match nth_error ?l ?i with _ => _ end] =>
          destruct (nth_error l i)
      | |- context [match time_Parse ?a ?b with _ => _ end] =>
          destruct (time_Parse a b)
      end;
    simpl; split; repeat constructor.
Qed.

(** A loop whose body either stops at its own index or prints one line. *)
Lemma for_loop_run (body : nat -> M unit) (reach : nat -> nat -> Prop) :
  (forall j,
      (exists len, body j = ([], inr (IndexOutOfRange j len)) /\ reach j len)
      \/ (exists l, body j = ([PrintLine l], inl tt))) ->
  forall n i,
    printed (for_loop body n i)
    = map PrintLine (lines (printed (for_loop body n i)))
    /\ ((result (for_loop body n i) = inl tt
         /\ List.length (lines (printed (for_loop body n i))) = n)
        \/ (exists k len,
              (k < n)%nat
              /\ result (for_loop body n i)
                 = inr (IndexOutOfRange (i + k) len)
              /\ reach (i + k)%nat len
              /\ List.length (lines (printed (for_loop body n i))) = k)).
Proof.
  intros Hbody n.
  induction n as [|n IH]; intros i.
  - split; [reflexivity|]. left. split; reflexivity.
  - simpl. destruct (Hbody i) as [(len & Hi & Hreach)|[l Hi]]; rewrite Hi.
    + split; [reflexivity|]. right. exists 0%nat, len.
      rewrite Nat.add_0_r. repeat split; [lia|exact Hreach].
    + destruct (IH (S i)) as [Hp Hr].
      unfold bind, printed, result in *.
      destruct (for_loop body n (S i)) as [o r]. simpl in *.
      split; [rewrite Hp at 1; reflexivity|].
      destruct Hr as [[Hr Hl]|(k & len & Hk & Hr & Hreach & Hl)].
      * left. split; [exact Hr|]. rewrite Hl. reflexivity.
      * right. exists (S k), len. rewrite Nat.add_succ_r.
        repeat split; [lia|exact Hr|exact Hreach|]. rewrite Hl. reflexivity.
Qed.

Section RenderingMore.

Variable int_unrepresentable : float -> Z.
Variable Unmarshal_Response : string -> Response.t + string.
Variable Time : Type.
Variable time_Parse : string -> string -> Time + string.
Variable time_Format : Time -> string -> string.

Let run :=
  processJsonData int_unrepresentable Unmarshal_Response Time time_Parse
    time_Format.

Lemma render_day_body resp fah showPrecip showUV showSunrise showSunset
    minTemp maxTemp j :
  (exists len,
      render_day int_unrepresentable Time time_Parse time_Format resp fah
        showPrecip showUV showSunrise showSunset minTemp maxTemp j
      = ([], inr (IndexOutOfRange j len))
      /\ out_of_reach (Response.History resp) showPrecip showUV showSunrise
           showSunset j len)
  \/ (exists l,
        render_day int_unrepresentable Time time_Parse time_Format resp fah
          showPrecip showUV showSunrise showSunset minTemp maxTemp j
        = ([PrintLine l], inl tt)).
Proof.
  destruct (render_day_cases int_unrepresentable Time time_Parse time_Format
              resp fah showPrecip showUV showSunrise showSunset
              minTemp maxTemp j) as [H|(x & day & _ & _ & H)].
  - left. exact H.
  - right. eexists. exact H.
Qed.

(** How a run on a decoded payload ends, and what it has printed by then. *)
Lemma processJsonData_run jsonData resp fah showPrecip showUV showSunrise
    showSunset :
  Unmarshal_Response jsonData = inl resp ->
  printed (run jsonData fah showPrecip showUV showSunrise showSunset)
  = map PrintLine
      (lines (printed (run jsonData fah showPrecip showUV showSunrise showSunset)))
  /\ ((result (run jsonData fah showPrecip showUV showSunrise showSunset)
       = inl tt
       /\ List.length
            (lines (printed
                      (run jsonData fah showPrecip showUV showSunrise showSunset)))
          = List.length (History.MaxTemps (Response.History resp)))
      \/ (exists k len,
            (k < List.length (History.MaxTemps (Response.History resp)))%nat
            /\ result (run jsonData fah showPrecip showUV showSunrise showSunset)
               = inr (IndexOutOfRange k len)
            /\ out_of_reach (Response.History resp) showPrecip showUV
                 showSunrise showSunset k len
            /\ List.length
                 (lines (printed
                           (run jsonData fah showPrecip showUV showSunrise
                              showSunset)))
               = k)).
Proof.
  intros Hdec. unfold run, processJsonData. rewrite Hdec.
  destruct (temp_range fah (History.MaxTemps (Response.History resp)))
    as [minTemp maxTemp].
  apply (for_loop_run _
           (out_of_reach (Response.History resp) showPrecip showUV showSunrise
              showSunset)
           (render_day_body resp fah showPrecip showUV showSunrise showSunset
              minTemp maxTemp)
           (List.length (History.MaxTemps (Response.History resp))) 0%nat).
Qed.

(** The [k]-th line printed is the line of day [k], segments included. *)
Lemma processJsonData_day jsonData resp fah showPrecip showUV showSunrise
    showSunset k l :
  Unmarshal_Response jsonData = inl resp ->
  nth_error
    (lines (printed (run jsonData fah showPrecip showUV showSunrise showSunset)))
    k = Some l ->
  exists x day,
    nth_error (History.MaxTemps (Response.History resp)) k = Some x
    /\ nth_error (History.World (Response.History resp)) k = Some day
    /\ l = day_line int_unrepresentable fah
             (fst (temp_range fah (History.MaxTemps (Response.History resp))))
             (snd (temp_range fah (History.MaxTemps (Response.History resp))))
             x day
             (day_segments Time time_Parse time_Format (Response.History resp)
                showPrecip showUV showSunrise showSunset k).
Proof.
  intros Hdec Hk. unfold run, processJsonData in Hk. rewrite Hdec in Hk.
  destruct (temp_range fah (History.MaxTemps (Response.History resp)))
    as [minTemp maxTemp].
  apply for_loop_nth in Hk.
  - destruct Hk as [_ Hk]. simpl in Hk.
    destruct (render_day_cases int_unrepresentable Time time_Parse time_Format
                resp fah showPrecip showUV showSunrise showSunset
                minTemp maxTemp k)
      as [(len & Hh & _)|(x & day & Hx & Hday & Hl)].
    + rewrite Hh in Hk. discriminate.
    + rewrite Hl in Hk. injection Hk as <-.
      exists x, day. auto.
  - intros j.
    destruct (render_day_body resp fah showPrecip showUV showSunrise
                showSunset minTemp maxTemp j) as [(len & Hh & _)|Hl].
    + left. eexists. exact Hh.
    + right. exact Hl.
Qed.


(** X2. [processJsonData] prints nothing but day lines on a payload that
    decodes (the debugging print of [createPattern] is never reached), and
    exactly one error line, returning normally, on one that does not. *)
Theorem run_prints_day_lines_or_one_error jsonData fah showPrecip showUV
    showSunrise showSunset :
  match Unmarshal_Response jsonData with
  | inl _ =>
      printed (run jsonData fah showPrecip showUV showSunrise showSunset)
      = map PrintLine
          (lines (printed
                    (run jsonData fah showPrecip showUV showSunrise showSunset)))
  | inr err =>
      run jsonData fah showPrecip showUV showSunrise showSunset
      = ([PrintError err], inl tt)
  end.
Proof.
  destruct (Unmarshal_Response jsonData) as [resp|err] eqn:Hdec.
  - apply (processJsonData_run jsonData resp fah showPrecip showUV showSunrise
             showSunset Hdec).
  - unfold run, processJsonData. rewrite Hdec. reflexivity.
Qed.

(** X3. Only the arrays of the options that are on are read: when the dates
    cover the temperatures and so does every non-empty optional array whose
    option is on, the run reaches the end with one line per day, whatever the
    arrays of the other options hold. *)
Theorem arrays_of_disabled_options_are_not_read jsonData resp fah showPrecip
    showUV showSunrise showSunset :
  Unmarshal_Response jsonData = inl resp ->
  aligned_for (Response.History resp) showPrecip showUV showSunrise showSunset ->
  result (run jsonData fah showPrecip showUV showSunrise showSunset) = inl tt
  /\ List.length
       (lines (printed
                 (run jsonData fah showPrecip showUV showSunrise showSunset)))
     = List.length (History.MaxTemps (Response.History resp)).
Proof.
  intros Hdec (HW & HSr & HSs & HP & HU).
  destruct (processJsonData_run jsonData resp fah showPrecip showUV showSunrise
              showSunset Hdec) as [_ [Hok|(k & len & Hk & _ & Hreach & _)]];
    [exact Hok|exfalso].
  unfold covers_or_empty, covers in *.
  destruct Hreach as
    [Hle [->|[->|[(Hon & Hpos & ->)|[(Hon & Hpos & ->)|[(Hon & Hpos & ->)
                                                       |(Hon & Hpos & ->)]]]]]];
    try lia;
    [ destruct (HSr Hon) as [He|Hc] | destruct (HSs Hon) as [He|Hc]
    | destruct (HP Hon) as [He|Hc] | destruct (HU Hon) as [He|Hc] ];
    try (rewrite He in Hpos; simpl in Hpos); lia.
Qed.

(** X4. The lines come out in the order of the days, each with the data of
    its own day: the [k]-th line printed carries the [k]-th date, the integer
    part of the [k]-th temperature in the unit of the report, the letter of
    that unit, and the segments of day [k]. *)
Theorem kth_line_is_day_k jsonData resp fah showPrecip showUV showSunrise
    showSunset k l :
  Unmarshal_Response jsonData = inl resp ->
  nth_error
    (lines (printed (run jsonData fah showPrecip showUV showSunrise showSunset)))
    k = Some l ->
  exists x,
    nth_error (History.MaxTemps (Response.History resp)) k = Some x
    /\ nth_error (History.World (Response.History resp)) k = Some (l_date l)
    /\ l_degrees l
       = int_of_float64 int_unrepresentable
           (if fah then (x * 9 / 5 + 32)%float else x)
    /\ l_unit l = (if fah then "F" else "C")%string
    /\ l_segments l
       = day_segments Time time_Parse time_Format (Response.History resp)
           showPrecip showUV showSunrise showSunset k.
Proof.
  intros Hdec Hk.
  destruct (processJsonData_day jsonData resp fah showPrecip showUV showSunrise
              showSunset k l Hdec Hk) as (x & day & Hx & Hday & ->).
  exists x. repeat split; assumption.
Qed.

(** X5. On every line printed the segments stand in the fixed order sunrise,
    sunset, precipitation, UV index, each at most once, and only segments of
    options that are on appear. *)
Theorem segments_keep_their_order jsonData fah showPrecip showUV showSunrise
    showSunset :
  Forall
    (fun l =>
       StronglySorted lt (map segment_rank (l_segments l))
       /\ Forall
            (fun s =>
               segment_enabled showPrecip showUV showSunrise showSunset s
               = true)
            (l_segments l))
    (lines (printed (run jsonData fah showPrecip showUV showSunrise showSunset))).
Proof.
  destruct (Unmarshal_Response jsonData) as [resp|err] eqn:Hdec.
  - apply Forall_forall. intros l Hl.
    apply In_nth_error in Hl. destruct Hl as [k Hk].
    destruct (processJsonData_day jsonData resp fah showPrecip showUV
                showSunrise showSunset k l Hdec Hk) as (x & day & _ & _ & ->).
    apply day_segments_in_order.
  - unfold run, processJsonData. rewrite Hdec. constructor.
Qed.

(** X6. A day whose temperature, in the unit of the report, is the minTemp of
    the first loop is given intensity 1, wherever [int] of NaN is not
    positive: the floor of the indicator, not an empty one. *)
Theorem day_at_the_minimum_shows_one_star jsonData resp fah showPrecip showUV
    showSunrise showSunset k l x :
  int_unrepresentable nan <= 0 ->
  Unmarshal_Response jsonData = inl resp ->
  nth_error
    (lines (printed (run jsonData fah showPrecip showUV showSunrise showSunset)))
    k = Some l ->
  nth_error (History.MaxTemps (Response.History resp)) k = Some x ->
  display_temp fah x
  = fst (temp_range fah (History.MaxTemps (Response.History resp))) ->
  intensity (l_pattern l) = 1%nat.
Proof.
  intros Hnan Hdec Hk Hx Hmin.
  destruct (processJsonData_day jsonData resp fah showPrecip showUV showSunrise
              showSunset k l Hdec Hk) as (x' & day & Hx' & _ & ->).
  rewrite Hx in Hx'. injection Hx' as <-.
  unfold day_line. cbn [l_pattern]. rewrite <- Hmin.
  rewrite floored_stars_at_min by exact Hnan. reflexivity.
Qed.

End RenderingMore.

(** * Further properties: the indicator, the first loop, the request *)

(** X7. [createPattern] never fails: for every [n] it returns a pattern of
    width 5 made of [n] asterisks, with [n] brought into 0..5, followed by
    blanks; it prints [n] exactly when [n] is negative, and its second
    argument plays no part. *)
Theorem createPattern_is_five_wide (n : Z) (isFahrenheit : bool) :
  result (createPattern n isFahrenheit)
  = inl (stars_blanks (Z.to_nat (Z.max 0 (Z.min n 5))))
  /\ String.length (stars_blanks (Z.to_nat (Z.max 0 (Z.min n 5)))) = 5%nat
  /\ intensity (stars_blanks (Z.to_nat (Z.max 0 (Z.min n 5))))
     = Z.to_nat (Z.max 0 (Z.min n 5))
  /\ printed (createPattern n isFahrenheit)
     = (if n <? 0 then [PrintInt n] else [])
  /\ createPattern n isFahrenheit = createPattern n (negb isFahrenheit).
Proof.
  assert (Hk : (Z.to_nat (Z.max 0 (Z.min n 5)) <= 5)%nat) by lia.
  split; [|split; [|split; [|split]]].
  - destruct (Z.ltb_spec n 0) as [Hneg|Hpos].
    + unfold createPattern. destruct (n <? 0) eqn:E; [|lia].
      rewrite Z.max_l by lia. reflexivity.
    + destruct (Z.eq_dec n 0) as [->|Hnz]; [reflexivity|].
      rewrite createPattern_floored by lia.
      rewrite Z.max_r by lia. reflexivity.
  - revert Hk. generalize (Z.to_nat (Z.max 0 (Z.min n 5))) as k. intros k Hk.
    do 6 (destruct k as [|k]; [reflexivity|]). lia.
  - apply intensity_stars_blanks. exact Hk.
  - destruct (Z.ltb_spec n 0) as [Hneg|Hpos].
    + unfold createPattern. destruct (n <? 0) eqn:E; [|lia]. reflexivity.
    + destruct (Z.eq_dec n 0) as [->|Hnz]; [reflexivity|].
      rewrite createPattern_floored by lia. reflexivity.
  - reflexivity.
Qed.

Lemma fold_range_members (fah : bool) (temps : list float) :
  forall minTemp maxTemp,
    In (fst (fold_left (range_step fah) temps (minTemp, maxTemp)))
      (minTemp :: map (display_temp fah) temps)
    /\ In (snd (fold_left (range_step fah) temps (minTemp, maxTemp)))
         (maxTemp :: map (display_temp fah) temps).
Proof.
  induction temps as [|t temps IH]; intros minTemp maxTemp.
  - split; left; reflexivity.
  - cbn [fold_left map].
    destruct (range_step fah (minTemp, maxTemp) t) as [mn mx] eqn:Hstep.
    unfold range_step in Hstep.
    change (if fah then (t * 9 / 5 + 32)%float else t)
      with (display_temp fah t) in Hstep.
    injection Hstep as Hmn Hmx.
    destruct (IH mn mx) as [Hmin Hmax]. split.
    + destruct Hmin as [Hmin|Hmin]; [|right; right; exact Hmin].
      rewrite <- Hmin, <- Hmn.
      destruct ((minTemp =? 0)%float || (display_temp fah t <? minTemp)%float);
        [right; left; reflexivity|left; reflexivity].
    + destruct Hmax as [Hmax|Hmax]; [|right; right; exact Hmax].
      rewrite <- Hmax, <- Hmx.
      destruct (maxTemp <? display_temp fah t)%float;
        [right; left; reflexivity|left; reflexivity].
Qed.

(** X8. On a non-empty series the minTemp of the first loop is the
    temperature of some day, in the unit of the report; its maxTemp is the
    temperature of some day or the initial 0. *)
Theorem range_ends_are_temperatures_of_days (fah : bool) (temps : list float) :
  temps <> [] ->
  In (fst (temp_range fah temps)) (map (display_temp fah) temps)
  /\ In (snd (temp_range fah temps)) (0%float :: map (display_temp fah) temps).
Proof.
  intros Hne. split; [|apply fold_range_members].
  destruct temps as [|t rest]; [contradiction|].
  unfold temp_range. cbn [fold_left map].
  destruct (range_step fah (0%float, 0%float) t) as [mn mx] eqn:Hstep.
  unfold range_step in Hstep.
  change (if fah then (t * 9 / 5 + 32)%float else t)
    with (display_temp fah t) in Hstep.
  change ((0 =? 0)%float) with true in Hstep. cbn [orb] in Hstep.
  injection Hstep as Hmn _. rewrite <- Hmn.
  apply fold_range_members.
Qed.

Lemma below_a_negative (a b : float) :
  (b <? 0)%float = true -> (a <? b)%float = true -> (a <? 0)%float = true.
Proof.
  rewrite !ltb_spec. change (Prim2SF 0) with (S754_zero false).
  destruct (Prim2SF a) as [sa|sa| |sa ma ea];
    destruct (Prim2SF b) as [sb|sb| |sb mb eb];
    try destruct sa; try destruct sb; simpl; intros Hb Ha;
    try discriminate; reflexivity.
Qed.

Lemma fold_max_not_negative (fah : bool) (temps : list float) :
  forall minTemp maxTemp,
    (maxTemp <? 0)%float = false ->
    (snd (fold_left (range_step fah) temps (minTemp, maxTemp)) <? 0)%float
    = false.
Proof.
  induction temps as [|t temps IH]; intros minTemp maxTemp Hmax; [exact Hmax|].
  cbn [fold_left].
  destruct (range_step fah (minTemp, maxTemp) t) as [mn mx] eqn:Hstep.
  unfold range_step in Hstep.
  change (if fah then (t * 9 / 5 + 32)%float else t)
    with (display_temp fah t) in Hstep.
  injection Hstep as _ Hmx.
  apply IH. rewrite <- Hmx.
  destruct (maxTemp <? display_temp fah t)%float eqn:Hlt; [|exact Hmax].
  destruct (display_temp fah t <? 0)%float eqn:Hneg; [|reflexivity].
  rewrite (below_a_negative _ _ Hneg Hlt) in Hmax. discriminate.
Qed.

(** X9. The maxTemp of the first loop is never below zero, whatever the
    series and the unit: it starts at 0 and is only ever replaced by a
    greater value. *)
Theorem computed_maximum_is_never_negative (fah : bool) (temps : list float) :
  (snd (temp_range fah temps) <? 0)%float = false.
Proof.
  unfold temp_range. apply fold_max_not_negative. reflexivity.
Qed.

(** X10. The text of [formatExtraForecastParams] always starts with the two
    mandatory daily fields, and the five flags can be read back from it: two
    different settings never give the same request suffix. *)
Theorem request_suffix_round_trip (f : ForecastParams.t) :
  prefix "&daily=temperature_2m_max,temperature_2m_min"
    (formatExtraForecastParams f) = true
  /\ read_params (formatExtraForecastParams f) = f.
Proof.
  destruct f as [p sunrise sunset uv fahr].
  destruct p, sunrise, sunset, uv, fahr; split; vm_compute; reflexivity.
Qed.

(** * Further properties: the resolver and the command *)

Lemma first_match_sound (results : list GeoCodingResult.t)
    (country lat lon : string) :
  first_match results country = Some (lat, lon) ->
  exists r,
    In r results
    /\ GeoCodingResult.Country r = country
    /\ GeoCodingResult.Latitude r = lat
    /\ GeoCodingResult.Longitude r = lon.
Proof.
  induction results as [|r results IH]; simpl; [discriminate|].
  destruct (String.eqb_spec (GeoCodingResult.Country r) country) as [He|_].
  - intros H. injection H as <- <-. exists r. auto.
  - intros H. destruct (IH H) as (r' & Hin & Hr'). exists r'. auto.
Qed.

Section CommandProperties.

Variable int_unrepresentable : float -> Z.
Variable http_Get : string -> string + string.
Variable url_PathEscape : string -> string.
Variable Unmarshal_GeoCodingResponse : string -> GeoCodingResponse.t + string.
Variable Unmarshal_Response : string -> Response.t + string.
Variable Time : Type.
Variable time_Parse : string -> string -> Time + string.
Variable time_Format : Time -> string -> string.

Let resolve :=
  FindCityLocation http_Get url_PathEscape Unmarshal_GeoCodingResponse.

Let command :=
  main int_unrepresentable http_Get url_PathEscape Unmarshal_GeoCodingResponse
    Unmarshal_Response Time time_Parse time_Format.

Let render :=
  processJsonData int_unrepresentable Unmarshal_Response Time time_Parse
    time_Format.

(** X11. Whatever [FindCityLocation] returns is either the coordinates of a
    candidate of the decoded list whose country is the one asked for, with no
    error, or an error with both coordinates empty: it never returns the
    coordinates of a place in another country, and never coordinates
    together with an error. *)
Theorem resolved_place_is_in_the_country city lat lon err :
  result (resolve city) = inl (lat, lon, err) ->
  (err = None
   /\ exists body results r,
       http_Get (geocodingUrl url_PathEscape city) = inl body
       /\ Unmarshal_GeoCodingResponse body = inl (GeoCodingResponse.mk results)
       /\ In r results
       /\ GeoCodingResult.Country r = City.Country city
       /\ GeoCodingResult.Latitude r = lat
       /\ GeoCodingResult.Longitude r = lon)
  \/ (lat = EmptyString /\ lon = EmptyString /\ err <> None).
Proof.
  unfold resolve, FindCityLocation.
  destruct (http_Get (geocodingUrl url_PathEscape city)) as [body|e] eqn:Hget.
  - destruct (Unmarshal_GeoCodingResponse body) as [[results]|e] eqn:Hdec.
    + simpl.
      destruct (first_match results (City.Country city)) as [[la lo]|] eqn:Hm.
      * intros H. injection H as <- <- <-. left. split; [reflexivity|].
        destruct (first_match_sound _ _ _ _ Hm) as (r & Hin & Hc & Hla & Hlo).
        exists body, results, r.
        repeat split; try reflexivity; assumption.
      * intros H. injection H as <- <- <-. right.
        repeat split; discriminate.
    + intros H. discriminate H.
  - intros H. injection H as <- <- <-. right. repeat split; discriminate.
Qed.

(** X12. Without a city or without a country [main] prints the usage text
    and exits with status 1 before anything else: the outcome is the same
    whatever the network and the decoders would answer. *)
Theorem missing_city_or_country_prints_usage fl :
  Flags.city fl = EmptyString \/ Flags.country fl = EmptyString ->
  command fl = ([PrintUsage], inr (Exit 1)).
Proof.
  intros H. unfold command, main.
  assert (Hc : String.eqb (Flags.city fl) "" || String.eqb (Flags.country fl) ""
               = true).
  { destruct H as [->| ->]; [reflexivity|]. apply orb_true_r. }
  rewrite Hc. reflexivity.
Qed.


(** X14. When both lookups succeed, [main] is the renderer run on the body
    fetched for the coordinates of the first candidate of the country asked
    for, under the same flags; nothing else is printed. *)
Theorem command_renders_the_forecast_of_the_resolved_place fl body pre c post
    weather :
  Flags.city fl <> EmptyString ->
  Flags.country fl <> EmptyString ->
  http_Get
    (geocodingUrl url_PathEscape (City.mk (Flags.city fl) (Flags.country fl)))
  = inl body ->
  Unmarshal_GeoCodingResponse body
  = inl (GeoCodingResponse.mk (pre ++ c :: post)) ->
  (forall r, In r pre -> GeoCodingResult.Country r <> Flags.country fl) ->
  GeoCodingResult.Country c = Flags.country fl ->
  http_Get
    (forecastUrl
       (Location.mk (GeoCodingResult.Longitude c) (GeoCodingResult.Latitude c))
       (ForecastParams.mk (Flags.p fl) (Flags.sunrise fl) (Flags.sunset fl)
          (Flags.uv fl) (Flags.f fl)))
  = inl weather ->
  command fl
  = render weather (Flags.f fl) (Flags.p fl) (Flags.uv fl) (Flags.sunrise fl)
      (Flags.sunset fl).
Proof.
  intros Hcity Hcountry Hget Hdec Hpre Hc Hweather.
  unfold command, main, render.
  apply String.eqb_neq in Hcity. apply String.eqb_neq in Hcountry.
  rewrite Hcity, Hcountry. cbn [orb]. rewrite bind_ret.
  unfold FindCityLocation. rewrite Hget, Hdec. cbn [GeoCodingResponse.GeoCodingResults City.Country].
  rewrite (first_match_app pre post c _ Hpre Hc). rewrite bind_ret.
  unfold GetWeather. rewrite Hweather. reflexivity.
Qed.


(** X16. A geocoding request that fails is reported as it is: [main] prints
    the text of the transport error and exits with status 1. *)
Theorem command_reports_a_failed_geocoding_request fl e :
  Flags.city fl <> EmptyString ->
  Flags.country fl <> EmptyString ->
  http_Get
    (geocodingUrl url_PathEscape (City.mk (Flags.city fl) (Flags.country fl)))
  = inr e ->
  command fl = ([PrintText e], inr (Exit 1)).
Proof.
  intros Hcity Hcountry Hget.
  apply String.eqb_neq in Hcity. apply String.eqb_neq in Hcountry.
  unfold command, main. rewrite Hcity, Hcountry. cbn [orb]. rewrite bind_ret.
  unfold FindCityLocation. rewrite Hget. rewrite bind_ret. reflexivity.
Qed.

(** X17. A geocoding answer that does not decode is fatal: [main] logs
    "Error unmarshalling JSON: " followed by the decoder's error and exits
    with status 1, whatever country was asked for. *)
Theorem command_dies_on_an_undecodable_geocoding_answer fl body e :
  Flags.city fl <> EmptyString ->
  Flags.country fl <> EmptyString ->
  http_Get
    (geocodingUrl url_PathEscape (City.mk (Flags.city fl) (Flags.country fl)))
  = inl body ->
  Unmarshal_GeoCodingResponse body = inr e ->
  command fl
  = ([LogFatal ("Error unmarshalling JSON: " ++ e)%string], inr (Exit 1)).
Proof.
  intros Hcity Hcountry Hget Hdec.
  apply String.eqb_neq in Hcity. apply String.eqb_neq in Hcountry.
  unfold command, main. rewrite Hcity, Hcountry. cbn [orb]. rewrite bind_ret.
  unfold FindCityLocation. rewrite Hget, Hdec. reflexivity.
Qed.

(** X18. A forecast request that fails after the place was resolved is
    reported as it is: [main] prints the text of the transport error and
    exits with status 1, without a line of the report. *)
Theorem command_reports_a_failed_forecast_request fl body pre c post e :
  Flags.city fl <> EmptyString ->
  Flags.country fl <> EmptyString ->
  http_Get
    (geocodingUrl url_PathEscape (City.mk (Flags.city fl) (Flags.country fl)))
  = inl body ->
  Unmarshal_GeoCodingResponse body
  = inl (GeoCodingResponse.mk (pre ++ c :: post)) ->
  (forall r, In r pre -> GeoCodingResult.Country r <> Flags.country fl) ->
  GeoCodingResult.Country c = Flags.country fl ->
  http_Get
    (forecastUrl
       (Location.mk (GeoCodingResult.Longitude c) (GeoCodingResult.Latitude c))
       (ForecastParams.mk (Flags.p fl) (Flags.sunrise fl) (Flags.sunset fl)
          (Flags.uv fl) (Flags.f fl)))
  = inr e ->
  command fl = ([PrintText e], inr (Exit 1)).
Proof.
  intros Hcity Hcountry Hget Hdec Hpre Hc Hweather.
  unfold command, main.
  apply String.eqb_neq in Hcity. apply String.eqb_neq in Hcountry.
  rewrite Hcity, Hcountry. cbn [orb]. rewrite bind_ret.
  unfold FindCityLocation. rewrite Hget, Hdec.
  cbn [GeoCodingResponse.GeoCodingResults City.Country].
  rewrite (first_match_app pre post c _ Hpre Hc). rewrite bind_ret.
  unfold GetWeather. rewrite Hweather. reflexivity.
Qed.

End CommandProperties.

(** ** Evaluated runs for the further properties *)


Lemma arrays_of_disabled_options_are_not_read_witness :
  decode_as short_sunrise EmptyString = inl short_sunrise
  /\ aligned_for (Response.History short_sunrise) true true false true
  /\ result
       (processJsonData amd64_unrepresentable (decode_as short_sunrise) string
          sample_Parse sample_Format EmptyString true true true false true)
     = inl tt
  /\ List.length
       (lines (printed
          (processJsonData amd64_unrepresentable (decode_as short_sunrise)
             string sample_Parse sample_Format EmptyString
             true true true false true)))
     = 2%nat.
Proof.
  assert (Hal : aligned_for (Response.History short_sunrise)
                  true true false true).
  { unfold aligned_for, covers_or_empty, covers. simpl.
    repeat split; try (intros _; left; reflexivity); try discriminate; lia. }
  split; [reflexivity|]. split; [exact Hal|].
  apply (arrays_of_disabled_options_are_not_read amd64_unrepresentable
           (decode_as short_sunrise) string sample_Parse sample_Format
           EmptyString short_sunrise true true true false true eq_refl Hal).
Defined.

Lemma kth_line_is_day_k_witness :
  decode_as rising_week EmptyString = inl rising_week
  /\ exists l,
       nth_error
         (lines (printed
            (processJsonData amd64_unrepresentable (decode_as rising_week)
               string sample_Parse sample_Format EmptyString
               true true true true true)))
         1
       = Some l
       /\ l = mkLine "**   " 59 "F" "2024-06-02"
                [SegPrecip 1.5%float; SegUVIndex 6%float]
       /\ exists x,
            nth_error (History.MaxTemps (Response.History rising_week)) 1
            = Some x
            /\ nth_error (History.World (Response.History rising_week)) 1
               = Some (l_date l)
            /\ l_degrees l
               = int_of_float64 amd64_unrepresentable (x * 9 / 5 + 32)%float
            /\ l_unit l = "F"%string
            /\ l_segments l
               = day_segments string sample_Parse sample_Format
                   (Response.History rising_week) true true true true 1.
Proof.
  split; [reflexivity|].
  exists (mkLine "**   " 59 "F" "2024-06-02"
            [SegPrecip 1.5%float; SegUVIndex 6%float]).
  split; [vm_compute; reflexivity|]. split; [reflexivity|].
  apply (kth_line_is_day_k amd64_unrepresentable (decode_as rising_week)
           string sample_Parse sample_Format EmptyString rising_week
           true true true true true 1%nat
           (mkLine "**   " 59 "F" "2024-06-02"
              [SegPrecip 1.5%float; SegUVIndex 6%float])
           eq_refl eq_refl).
Defined.

Lemma day_at_the_minimum_shows_one_star_witness :
  amd64_unrepresentable nan <= 0
  /\ decode_as rising_week EmptyString = inl rising_week
  /\ nth_error
       (lines (printed
          (processJsonData amd64_unrepresentable (decode_as rising_week) string
             sample_Parse sample_Format EmptyString
             true false false false false)))
       0
     = Some (mkLine "*    " 50 "F" "2024-06-01" [])
  /\ nth_error (History.MaxTemps (Response.History rising_week)) 0
     = Some 10%float
  /\ display_temp true 10
     = fst (temp_range true (History.MaxTemps (Response.History rising_week)))
  /\ intensity (l_pattern (mkLine "*    " 50 "F" "2024-06-01" [])) = 1%nat.
Proof.
  assert (Hnan : amd64_unrepresentable nan <= 0) by (vm_compute; discriminate).
  split; [exact Hnan|]. split; [reflexivity|].
  split; [vm_compute; reflexivity|]. split; [reflexivity|].
  split; [vm_compute; reflexivity|].
  apply (day_at_the_minimum_shows_one_star amd64_unrepresentable
           (decode_as rising_week) string sample_Parse sample_Format
           EmptyString rising_week true false false false false 0%nat
           (mkLine "*    " 50 "F" "2024-06-01" []) 10%float
           Hnan eq_refl eq_refl eq_refl eq_refl).
Defined.

Lemma range_ends_are_temperatures_of_days_witness :
  thaw_week <> []
  /\ In (fst (temp_range true thaw_week)) (map (display_temp true) thaw_week)
  /\ In (snd (temp_range true thaw_week))
       (0%float :: map (display_temp true) thaw_week).
Proof.
  assert (Hne : thaw_week <> []) by discriminate.
  split; [exact Hne|].
  apply (range_ends_are_temperatures_of_days true thaw_week Hne).
Defined.

Lemma resolved_place_is_in_the_country_witness :
  result
    (FindCityLocation honouring_provider (fun s => s)
       (decode_as (GeoCodingResponse.mk paris_candidates))
       (City.mk "Paris" "France"))
  = inl ("48.85341"%string, "2.3488"%string, None)
  /\ ((@None string = None
       /\ exists body results r,
           honouring_provider
             (geocodingUrl (fun s => s) (City.mk "Paris" "France"))
           = inl body
           /\ decode_as (GeoCodingResponse.mk paris_candidates) body
              = inl (GeoCodingResponse.mk results)
           /\ In r results
           /\ GeoCodingResult.Country r = "France"%string
           /\ GeoCodingResult.Latitude r = "48.85341"%string
           /\ GeoCodingResult.Longitude r = "2.3488"%string)
      \/ ("48.85341"%string = EmptyString
          /\ "2.3488"%string = EmptyString
          /\ @None string <> None)).
Proof.
  split; [reflexivity|].
  apply (resolved_place_is_in_the_country honouring_provider (fun s => s)
           (decode_as (GeoCodingResponse.mk paris_candidates))
           (City.mk "Paris" "France") "48.85341"%string "2.3488"%string None
           eq_refl).
Defined.

Lemma missing_city_or_country_prints_usage_witness :
  (Flags.city (Flags.mk "Oslo" "" false false false false false) = EmptyString
   \/ Flags.country (Flags.mk "Oslo" "" false false false false false)
      = EmptyString)
  /\ main amd64_unrepresentable unreachable_provider (fun s => s)
       decode_fails decode_fails string sample_Parse sample_Format
       (Flags.mk "Oslo" "" false false false false false)
     = ([PrintUsage], inr (Exit 1)).
Proof.
  split; [right; reflexivity|].
  apply (missing_city_or_country_prints_usage amd64_unrepresentable
           unreachable_provider (fun s => s) decode_fails decode_fails string
           sample_Parse sample_Format
           (Flags.mk "Oslo" "" false false false false false)).
  right. reflexivity.
Defined.

Lemma command_renders_the_forecast_of_the_resolved_place_witness :
  Flags.city (oslo_flags false) <> EmptyString
  /\ Flags.country (oslo_flags false) <> EmptyString
  /\ honouring_provider
       (geocodingUrl (fun s => s) (City.mk "Oslo" "Norway"))
     = inl "places"%string
  /\ decode_as (GeoCodingResponse.mk [oslo]) "places"%string
     = inl (GeoCodingResponse.mk ([] ++ oslo :: []))
  /\ (forall r, In r [] -> GeoCodingResult.Country r <> "Norway"%string)
  /\ GeoCodingResult.Country oslo = "Norway"%string
  /\ honouring_provider
       (forecastUrl (Location.mk "10.74609" "59.91273")
          (ForecastParams.mk true false false true false))
     = inl "two days, celsius"%string
  /\ main amd64_unrepresentable honouring_provider (fun s => s)
       (decode_as (GeoCodingResponse.mk [oslo])) honouring_forecast string
       sample_Parse sample_Format (oslo_flags false)
     = processJsonData amd64_unrepresentable honouring_forecast string
         sample_Parse sample_Format "two days, celsius" false true true
         false false.
Proof.
  assert (Hpre : forall r : GeoCodingResult.t,
             In r [] -> GeoCodingResult.Country r <> "Norway"%string)
    by (intros r []).
  split; [discriminate|]. split; [discriminate|]. split; [reflexivity|].
  split; [reflexivity|]. split; [exact Hpre|]. split; [reflexivity|].
  split; [reflexivity|].
  apply (command_renders_the_forecast_of_the_resolved_place
           amd64_unrepresentable honouring_provider (fun s => s)
           (decode_as (GeoCodingResponse.mk [oslo])) honouring_forecast string
           sample_Parse sample_Format (oslo_flags false) "places"%string
           [] oslo [] "two days, celsius"%string);
    [discriminate|discriminate|reflexivity|reflexivity|exact Hpre
    |reflexivity|reflexivity].
Defined.


Lemma command_reports_a_failed_geocoding_request_witness :
  Flags.city (oslo_flags true) <> EmptyString
  /\ Flags.country (oslo_flags true) <> EmptyString
  /\ unreachable_provider
       (geocodingUrl (fun s => s) (City.mk "Oslo" "Norway"))
     = inr "dial tcp: no route to host"%string
  /\ main amd64_unrepresentable unreachable_provider (fun s => s)
       (decode_as (GeoCodingResponse.mk [oslo])) honouring_forecast string
       sample_Parse sample_Format (oslo_flags true)
     = ([PrintText "dial tcp: no route to host"], inr (Exit 1)).
Proof.
  split; [discriminate|]. split; [discriminate|]. split; [reflexivity|].
  apply (command_reports_a_failed_geocoding_request amd64_unrepresentable
           unreachable_provider (fun s => s)
           (decode_as (GeoCodingResponse.mk [oslo])) honouring_forecast string
           sample_Parse sample_Format (oslo_flags true)
           "dial tcp: no route to host"%string);
    [discriminate|discriminate|reflexivity].
Defined.

Lemma command_dies_on_an_undecodable_geocoding_answer_witness :
  Flags.city (oslo_flags true) <> EmptyString
  /\ Flags.country (oslo_flags true) <> EmptyString
  /\ honouring_provider
       (geocodingUrl (fun s => s) (City.mk "Oslo" "Norway"))
     = inl "places"%string
  /\ @decode_fails GeoCodingResponse.t "places"%string
     = inr "unexpected end of JSON input"%string
  /\ main amd64_unrepresentable honouring_provider (fun s => s)
       decode_fails honouring_forecast string sample_Parse sample_Format
       (oslo_flags true)
     = ([LogFatal "Error unmarshalling JSON: unexpected end of JSON input"],
        inr (Exit 1)).
Proof.
  split; [discriminate|]. split; [discriminate|]. split; [reflexivity|].
  split; [reflexivity|].
  apply (command_dies_on_an_undecodable_geocoding_answer amd64_unrepresentable
           honouring_provider (fun s => s) decode_fails honouring_forecast
           string sample_Parse sample_Format (oslo_flags true)
           "places"%string "unexpected end of JSON input"%string);
    [discriminate|discriminate|reflexivity|reflexivity].
Defined.

Lemma command_reports_a_failed_forecast_request_witness :
  Flags.city (oslo_flags true) <> EmptyString
  /\ Flags.country (oslo_flags true) <> EmptyString
  /\ forecast_down_provider
       (geocodingUrl (fun s => s) (City.mk "Oslo" "Norway"))
     = inl "places"%string
  /\ decode_as (GeoCodingResponse.mk [oslo]) "places"%string
     = inl (GeoCodingResponse.mk ([] ++ oslo :: []))
  /\ (forall r, In r [] -> GeoCodingResult.Country r <> "Norway"%string)
  /\ GeoCodingResult.Country oslo = "Norway"%string
  /\ forecast_down_provider
       (forecastUrl (Location.mk "10.74609" "59.91273")
          (ForecastParams.mk true false false true true))
     = inr "connection refused"%string
  /\ main amd64_unrepresentable forecast_down_provider (fun s => s)
       (decode_as (GeoCodingResponse.mk [oslo])) honouring_forecast string
       sample_Parse sample_Format (oslo_flags true)
     = ([PrintText "connection refused"], inr (Exit 1)).
Proof.
  assert (Hpre : forall r : GeoCodingResult.t,
             In r [] -> GeoCodingResult.Country r <> "Norway"%string)
    by (intros r []).
  split; [discriminate|]. split; [discriminate|]. split; [reflexivity|].
  split; [reflexivity|]. split; [exact Hpre|]. split; [reflexivity|].
  split; [reflexivity|].
  apply (command_reports_a_failed_forecast_request amd64_unrepresentable
           forecast_down_provider (fun s => s)
           (decode_as (GeoCodingResponse.mk [oslo])) honouring_forecast string
           sample_Parse sample_Format (oslo_flags true) "places"%string
           [] oslo [] "connection refused"%string);
    [discriminate|discriminate|reflexivity|reflexivity|exact Hpre
    |reflexivity|reflexivity].
Defined.

(** ** Where the segments of a line come from *)

Lemma day_segments_values (Time : Type)
    (time_Parse : string -> string -> Time + string)
    (time_Format : Time -> string -> string) (h : History.t)
    (showPrecip showUV showSunrise showSunset : bool) (i : nat) :
  (forall clock,
      In (SegSunrise clock)
        (day_segments Time time_Parse time_Format h showPrecip showUV
           showSunrise showSunset i)
      <-> showSunrise = true
          /\ exists stamp t,
              nth_error (History.Sunrise h) i = Some stamp
              /\ time_Parse "2006-01-02T15:04"%string stamp = inl t
              /\ clock = time_Format t "15:04"%string)
  /\ (forall clock,
        In (SegSunset clock)
          (day_segments Time time_Parse time_Format h showPrecip showUV
             showSunrise showSunset i)
        <-> showSunset = true
            /\ exists stamp t,
                nth_error (History.Sunset h) i = Some stamp
                /\ time_Parse "2006-01-02T15:04"%string stamp = inl t
                /\ clock = time_Format t "15:04"%string)
  /\ (forall mm,
        In (SegPrecip mm)
          (day_segments Time time_Parse time_Format h showPrecip showUV
             showSunrise showSunset i)
        <-> showPrecip = true /\ nth_error (History.Precip h) i = Some mm)
  /\ (forall v,
        In (SegUVIndex v)
          (day_segments Time time_Parse time_Format h showPrecip showUV
             showSunrise showSunset i)
        <-> showUV = true /\ nth_error (History.UVIndex h) i = Some v).
Proof.
  unfold day_segments.
  destruct showSunrise, showSunset, showPrecip, showUV;
    destruct (nth_error (History.Sunrise h) i) as [sr|];
    destruct (nth_error (History.Sunset h) i) as [ss|];
    destruct (nth_error (History.Precip h) i) as [pr|];
    destruct (nth_error (History.UVIndex h) i) as [uv|];
    try destruct (time_Parse "2006-01-02T15:04"%string sr) as [tr|] eqn:Hr;
    try destruct (time_Parse "2006-01-02T15:04"%string ss) as [ts|] eqn:Hs;
    simpl;
    repeat split; intros;
    repeat match goal with
      | H : _ \/ _ |- _ => destruct H
      | H : _ /\ _ |- _ => destruct H
      | H : exists _, _ |- _ => destruct H
      | H : False |- _ => destruct H
      | H : Some _ = Some _ |- _ => injection H as H; subst
      | H : SegSunrise _ = SegSunrise _ |- _ => injection H as H; subst
      | H : SegSunset _ = SegSunset _ |- _ => injection H as H; subst
      | H : SegPrecip _ = SegPrecip _ |- _ => injection H as H; subst
      | H : SegUVIndex _ = SegUVIndex _ |- _ => injection H as H; subst
      | H1 : ?a = inl ?t1, H2 : ?a = inl ?t2 |- _ =>
          rewrite H1 in H2; injection H2 as H2; subst
      end;
    try discriminate; try congruence;
    eauto 8.
Qed.

(** X19. The segments of the [k]-th line show the values of day [k] itself:
    a sunrise or sunset segment is there exactly when its option is on and
    the day's stamp parses, and shows that stamp's clock time (a stamp that
    does not parse is left out without a word); a precipitation or UV
    segment is there exactly when its option is on and the array has an
    entry for the day, and carries that entry. *)
Theorem segments_show_the_days_own_values
    (int_unrepresentable : float -> Z)
    (Unmarshal_Response : string -> Response.t + string) (Time : Type)
    (time_Parse : string -> string -> Time + string)
    (time_Format : Time -> string -> string)
    jsonData resp fah showPrecip showUV showSunrise showSunset k l :
  Unmarshal_Response jsonData = inl resp ->
  nth_error
    (lines (printed
       (processJsonData int_unrepresentable Unmarshal_Response Time time_Parse
          time_Format jsonData fah showPrecip showUV showSunrise showSunset)))
    k = Some l ->
  (forall clock,
      In (SegSunrise clock) (l_segments l)
      <-> showSunrise = true
          /\ exists stamp t,
              nth_error (History.Sunrise (Response.History resp)) k = Some stamp
              /\ time_Parse "2006-01-02T15:04"%string stamp = inl t
              /\ clock = time_Format t "15:04"%string)
  /\ (forall clock,
        In (SegSunset clock) (l_segments l)
        <-> showSunset = true
            /\ exists stamp t,
                nth_error (History.Sunset (Response.History resp)) k
                = Some stamp
                /\ time_Parse "2006-01-02T15:04"%string stamp = inl t
                /\ clock = time_Format t "15:04"%string)
  /\ (forall mm,
        In (SegPrecip mm) (l_segments l)
        <-> showPrecip = true
            /\ nth_error (History.Precip (Response.History resp)) k = Some mm)
  /\ (forall v,
        In (SegUVIndex v) (l_segments l)
        <-> showUV = true
            /\ nth_error (History.UVIndex (Response.History resp)) k = Some v).
Proof.
  intros Hdec Hk.
  destruct (processJsonData_day int_unrepresentable Unmarshal_Response Time
              time_Parse time_Format jsonData resp fah showPrecip showUV
              showSunrise showSunset k l Hdec Hk) as (x & day & _ & _ & ->).
  unfold day_line. cbn [l_segments]. apply day_segments_values.
Qed.

Lemma segments_show_the_days_own_values_witness :
  decode_as rising_week EmptyString = inl rising_week
  /\ nth_error
       (lines (printed
          (processJsonData amd64_unrepresentable (decode_as rising_week) string
             sample_Parse sample_Format EmptyString
             false true false true true)))
       2
     = Some (mkLine "*****" 20 "C" "2024-06-03" [SegPrecip 0.25%float])
  /\ (forall mm,
        In (SegPrecip mm)
          (l_segments (mkLine "*****" 20 "C" "2024-06-03" [SegPrecip 0.25%float]))
        <-> true = true
            /\ nth_error (History.Precip (Response.History rising_week)) 2
               = Some mm).
Proof.
  split; [reflexivity|]. split; [vm_compute; reflexivity|].
  apply (segments_show_the_days_own_values amd64_unrepresentable
           (decode_as rising_week) string sample_Parse sample_Format
           EmptyString rising_week false true false true true 2%nat
           (mkLine "*****" 20 "C" "2024-06-03" [SegPrecip 0.25%float])
           eq_refl eq_refl).
Defined.

Lemma positive_series_range_witness :
  History.MaxTemps (Response.History rising_week) <> []
  /\ Forall (fun x => (0 <? display_temp true x)%float = true)
       (History.MaxTemps (Response.History rising_week))
  /\ true_min
       (map (display_temp true) (History.MaxTemps (Response.History rising_week)))
     = Some 50%float
  /\ true_max
       (map (display_temp true) (History.MaxTemps (Response.History rising_week)))
     = Some 68%float.
Proof.
  assert (Hne : History.MaxTemps (Response.History rising_week) <> [])
    by discriminate.
  assert (Hpos : Forall (fun x => (0 <? display_temp true x)%float = true)
                   (History.MaxTemps (Response.History rising_week)))
    by (repeat constructor).
  split; [exact Hne|]. split; [exact Hpos|].
  apply (positive_series_range true
           (History.MaxTemps (Response.History rising_week)) Hne Hpos).
Defined.
